(** * Order and builder-authorization signing of builder-examples

    A shallow embedding of the typed-data construction in
    [grvt_create_order_api.py] ([build_order_message_data], [sign_order],
    [EIP712_ORDER_MESSAGE_TYPE]) and [authorize.py] ([build_eip712_payload]
    and the fee-rate conversion of [authorize_builder]).

    Python values that come from [json.load] are modelled by the type
    [json]; a Python dict is an association list that keeps insertion
    order (keys are assumed distinct, as [json.load] produces them).
    Python exceptions are the constructors of [pyerr]; a fallible Python
    expression is a function into [result].

    The two numeric libraries the code calls are modelled from the Python
    semantics: [decimal.Decimal] under the default context (precision 28,
    ROUND_HALF_EVEN, Emax 999999, Overflow and InvalidOperation trapped)
    and [float] as IEEE binary64 with round-to-nearest-even.  The
    eth_account hashing and ECDSA signing are kept abstract (Section
    variables): no claim below depends on their internals. *)

From Stdlib Require Import ZArith List String Ascii Bool Lia.
Import ListNotations.

Local Open Scope string_scope.
Local Open Scope Z_scope.

(** ** JSON values and Python exceptions *)

Local Set Warnings "-register-all".

Inductive json : Type :=
| JNull
| JBool (b : bool)
| JInt (z : Z)
| JStr (s : string)
| JList (l : list json)
| JObj (kvs : list (string * json)).

Inductive pyerr : Type :=
| KeyError (k : string)
| TypeError
| AttributeError
| InstrumentNotFound (name : json)   (* ValueError raised by build_order_message_data *)
| BadTimeInForce (v : json)          (* ValueError raised by TimeInForce(v) *)
| EnumKeyError                       (* KeyError of TIME_IN_FORCE_TO_SIGN_TIME_IN_FORCE *)
| DecInvalidOperation                (* decimal.InvalidOperation *)
| DecOverflow                        (* decimal.Overflow *)
| IntOverflowError                   (* int(inf), int.to_bytes out of range *)
| IntValueError                      (* int(nan), int("abc") *)
| FloatValueError                    (* float("abc") *)
| PrimaryTypeError                   (* "Unable to determine primary type" *)
| SigningError.                      (* failure inside eth_account *)

Inductive result (A : Type) : Type :=
| Ok (a : A)
| Err (e : pyerr).
Arguments Ok {A} a.
Arguments Err {A} e.

Definition bind {A B : Type} (m : result A) (k : A -> result B) : result B :=
  match m with
  | Ok a => k a
  | Err e => Err e
  end.

Notation "x <- m ;; k" := (bind m (fun x => k))
  (at level 61, m at next level, right associativity).

(** ** Strings *)

Definition is_digit (c : ascii) : bool :=
  let n := nat_of_ascii c in (48 <=? n)%nat && (n <=? 57)%nat.

Definition digit_val (c : ascii) : Z := Z.of_nat (nat_of_ascii c) - 48.

Definition is_space (c : ascii) : bool :=
  let n := nat_of_ascii c in
  (n =? 32)%nat || ((9 <=? n)%nat && (n <=? 13)%nat).

Definition lower_char (c : ascii) : ascii :=
  let n := nat_of_ascii c in
  if (65 <=? n)%nat && (n <=? 90)%nat then ascii_of_nat (n + 32) else c.

Fixpoint lower (s : string) : string :=
  match s with
  | EmptyString => EmptyString
  | String c r => String (lower_char c) (lower r)
  end.

Fixpoint lstrip (s : string) : string :=
  match s with
  | String c r => if is_space c then lstrip r else s
  | EmptyString => EmptyString
  end.

Fixpoint rev_str (s : string) (acc : string) : string :=
  match s with
  | EmptyString => acc
  | String c r => rev_str r (String c acc)
  end.

(** [str.strip()] on ASCII whitespace. *)
Definition strip (s : string) : string :=
  rev_str (lstrip (rev_str (lstrip s) EmptyString)) EmptyString.

Fixpoint take_digits (s : string) : list Z * string :=
  match s with
  | String c r =>
      if is_digit c then let (ds, rest) := take_digits r in (digit_val c :: ds, rest)
      else ([], s)
  | EmptyString => ([], EmptyString)
  end.

Definition digits_to_Z (ds : list Z) : Z := fold_left (fun acc d => acc * 10 + d) ds 0.

Definition parse_sign (s : string) : bool * string :=
  match s with
  | String "-" r => (true, r)
  | String "+" r => (false, r)
  | _ => (false, s)
  end.

Fixpoint all_digits (s : string) : bool :=
  match s with
  | EmptyString => true
  | String c r => is_digit c && all_digits r
  end.

(** ** [decimal.Decimal] under the default context *)

Module PyDecimal.

(** A decimal value: a finite number [coef * 10 ^ exp], an infinity, a
    quiet NaN or a signalling NaN.  The sign of a zero is not kept: it
    never changes what [int()] returns. *)
Inductive decimal : Type :=
| DFinite (coef : Z) (exp : Z)
| DInf (neg : bool)
| DNaN
| DSNaN.

Definition PREC : Z := 28.
Definition EMAX : Z := 999999.

(** Optional exponent part [(e|E) [sign] digits], then end of input. *)
Definition parse_exponent (s : string) : option Z :=
  match s with
  | EmptyString => Some 0
  | String c r =>
      if (c =? "e")%char || (c =? "E")%char then
        let (neg, r') := parse_sign r in
        let (ds, r'') := take_digits r' in
        match ds, r'' with
        | _ :: _, EmptyString => Some (if neg then - digits_to_Z ds else digits_to_Z ds)
        | _, _ => None
        end
      else None
  end.

(** [digits '.' [digits] | ['.'] digits], then an optional exponent. *)
Definition parse_numeric (s : string) : option (Z * Z) :=
  let (ids, r) := take_digits s in
  match r with
  | String "." r' =>
      let (fds, r'') := take_digits r' in
      match app ids fds with
      | [] => None
      | ds => match parse_exponent r'' with
              | Some e => Some (digits_to_Z ds, e - Z.of_nat (List.length fds))
              | None => None
              end
      end
  | _ =>
      match ids with
      | [] => None
      | _ => match parse_exponent r with
             | Some e => Some (digits_to_Z ids, e)
             | None => None
             end
      end
  end.

(** [Decimal(s)] for a string [s]: surrounding whitespace is stripped,
    then [[sign] numeric-value | [sign] ("Inf" | "Infinity") |
    [sign] ("NaN" | "sNaN") [digits]], the special names without regard
    to case.  (Underscore digit separators are not modelled.)  [None] is
    the InvalidOperation Python raises on any other string. *)
Definition parse_decimal (s0 : string) : option decimal :=
  let (neg, s) := parse_sign (strip s0) in
  let l := lower s in
  if String.eqb l "inf" || String.eqb l "infinity" then Some (DInf neg)
  else match l with
  | String "n" (String "a" (String "n" r)) => if all_digits r then Some DNaN else None
  | String "s" (String "n" (String "a" (String "n" r))) => if all_digits r then Some DSNaN else None
  | _ => match parse_numeric s with
         | Some (c, e) => Some (DFinite (if neg then - c else c) e)
         | None => None
         end
  end.

Fixpoint ndigits_aux (fuel : nat) (n p d : Z) : Z :=
  match fuel with
  | O => d
  | S f => if n <? p then d else ndigits_aux f n (p * 10) (d + 1)
  end.

(** Number of decimal digits of [n >= 0] (1 for 0). *)
Definition ndigits (n : Z) : Z := ndigits_aux (Z.to_nat (Z.log2 n + 1)) n 10 1.

Definition round_half_even_div (n d : Z) : Z :=
  let q := n / d in
  let r := n mod d in
  if (d <? 2 * r) || ((2 * r =? d) && Z.odd q) then q + 1 else q.

(** Rounding of an exact result [c * 10 ^ e] to the context: at most
    [PREC] digits, ROUND_HALF_EVEN; an adjusted exponent above [EMAX]
    raises Overflow (trapped by default).  Zeros never overflow; the
    clamping of a zero's exponent and subnormal results are not modelled,
    since neither changes [int()] of the result. *)
Definition dec_round (c e : Z) : result decimal :=
  let a := Z.abs c in
  let nd := ndigits a in
  let '(a', e') :=
    if PREC <? nd then
      let drop := nd - PREC in
      let q := round_half_even_div a (10 ^ drop) in
      if q =? 10 ^ PREC then (q / 10, e + drop + 1) else (q, e + drop)
    else (a, e) in
  if a' =? 0 then Ok (DFinite 0 e')
  else if EMAX <? e' + ndigits a' - 1 then Err DecOverflow
  else Ok (DFinite (if c <? 0 then - a' else a') e').

(** [x * y] on decimals. *)
Definition dec_mul (x y : decimal) : result decimal :=
  match x, y with
  | DSNaN, _ | _, DSNaN => Err DecInvalidOperation
  | DNaN, _ | _, DNaN => Ok DNaN
  | DInf n1, DInf n2 => Ok (DInf (xorb n1 n2))
  | DInf n, DFinite c _ | DFinite c _, DInf n =>
      if c =? 0 then Err DecInvalidOperation else Ok (DInf (xorb n (c <? 0)))
  | DFinite c1 e1, DFinite c2 e2 => dec_round (c1 * c2) (e1 + e2)
  end.

(** [int(d)]: truncation toward zero. *)
Definition dec_to_int (d : decimal) : result Z :=
  match d with
  | DFinite c e => Ok (if 0 <=? e then c * 10 ^ e else Z.quot c (10 ^ (- e)))
  | DInf _ => Err IntOverflowError
  | DNaN | DSNaN => Err IntValueError
  end.

(** [Decimal(v)] for a JSON value. *)
Definition of_json (v : json) : result decimal :=
  match v with
  | JStr s => match parse_decimal s with
              | Some d => Ok d
              | None => Err DecInvalidOperation
              end
  | JInt z => Ok (DFinite z 0)
  | JBool b => Ok (DFinite (if b then 1 else 0) 0)
  | _ => Err TypeError
  end.

(** [int(Decimal(v) * Decimal(k))], the scaling expression used for
    contractSize, limitPrice and builderFee. *)
Definition scale (v : json) (k : Z) : result Z :=
  d <- of_json v ;;
  p <- dec_mul d (DFinite k 0) ;;
  dec_to_int p.

End PyDecimal.
(** ** [float] as IEEE 754 binary64 *)

Module PyFloat.

(** A finite double [m * 2 ^ ex] with [|m| < 2 ^ 53] and [-1074 <= ex <= 971],
    an infinity, or a NaN. *)
Inductive pyfloat : Type :=
| FFinite (m : Z) (ex : Z)
| FInf (neg : bool)
| FNaN.

(** [n / d >= 2 ^ a], for [n, d > 0]. *)
Definition ge_pow2 (n d a : Z) : bool :=
  if 0 <=? a then d * 2 ^ a <=? n else d <=? n * 2 ^ (- a).

(** The double nearest to [n / d] ([n >= 0], [d > 0]), ties to even,
    negated when [neg]; too large a value rounds to an infinity. *)
Definition round_binary64 (neg : bool) (n d : Z) : pyfloat :=
  if n =? 0 then FFinite 0 0 else
  let a := Z.log2 n - Z.log2 d in
  let l := if ge_pow2 n d a then a else a - 1 in
  let ex := Z.max (l - 52) (-1074) in
  let '(num, den) := if 0 <=? ex then (n, d * 2 ^ ex) else (n * 2 ^ (- ex), d) in
  let m := PyDecimal.round_half_even_div num den in
  let '(m', ex') := if m =? 2 ^ 53 then (2 ^ 52, ex + 1) else (m, ex) in
  if 971 <? ex' then FInf neg else FFinite (if neg then - m' else m') ex'.

(** [float(s)] for a string: the correctly rounded conversion of the
    decimal literal; "sNaN" and malformed strings raise ValueError. *)
Definition of_string (s : string) : result pyfloat :=
  match PyDecimal.parse_decimal s with
  | Some (PyDecimal.DFinite c e) =>
      Ok (round_binary64 (c <? 0) (Z.abs c * 10 ^ Z.max e 0) (10 ^ Z.max (- e) 0))
  | Some (PyDecimal.DInf neg) => Ok (FInf neg)
  | Some PyDecimal.DNaN => Ok FNaN
  | Some PyDecimal.DSNaN | None => Err FloatValueError
  end.

(** Conversion of a Python int operand to float; OverflowError when it
    does not fit. *)
Definition of_int (k : Z) : result pyfloat :=
  match round_binary64 (k <? 0) (Z.abs k) 1 with
  | FInf _ => Err IntOverflowError
  | f => Ok f
  end.

Definition is_zero (f : pyfloat) : bool :=
  match f with FFinite m _ => m =? 0 | _ => false end.

Definition is_neg (f : pyfloat) : bool :=
  match f with FFinite m _ => m <? 0 | FInf n => n | FNaN => false end.

(** [x * y] on doubles. *)
Definition mul (x y : pyfloat) : pyfloat :=
  match x, y with
  | FNaN, _ | _, FNaN => FNaN
  | FInf _, _ | _, FInf _ =>
      if is_zero x || is_zero y then FNaN else FInf (xorb (is_neg x) (is_neg y))
  | FFinite m1 e1, FFinite m2 e2 =>
      let p := m1 * m2 in
      let e := e1 + e2 in
      round_binary64 (p <? 0) (Z.abs p * 2 ^ Z.max e 0) (2 ^ Z.max (- e) 0)
  end.

(** [int(x)]: truncation toward zero. *)
Definition to_int (f : pyfloat) : result Z :=
  match f with
  | FFinite m ex => Ok (if 0 <=? ex then m * 2 ^ ex else Z.quot m (2 ^ (- ex)))
  | FInf _ => Err IntOverflowError
  | FNaN => Err IntValueError
  end.

End PyFloat.

(** ** Python dict operations on JSON values *)

Fixpoint assoc (k : string) (kvs : list (string * json)) : option json :=
  match kvs with
  | [] => None
  | (k', v) :: r => if String.eqb k k' then Some v else assoc k r
  end.

(** [d[k]]. *)
Definition getitem (d : json) (k : string) : result json :=
  match d with
  | JObj kvs => match assoc k kvs with
                | Some v => Ok v
                | None => Err (KeyError k)
                end
  | _ => Err TypeError
  end.

(** [d.get(k, default)]. *)
Definition get (d : json) (k : string) (default : json) : result json :=
  match d with
  | JObj kvs => match assoc k kvs with
                | Some v => Ok v
                | None => Ok default
                end
  | _ => Err AttributeError
  end.

(** [d[k] = v]: an existing key keeps its position, a new one is appended. *)
Fixpoint dict_set (k : string) (v : json) (kvs : list (string * json)) : list (string * json) :=
  match kvs with
  | [] => [(k, v)]
  | (k', v') :: r => if String.eqb k k' then (k', v) :: r else (k', v') :: dict_set k v r
  end.

Fixpoint chars (s : string) : list json :=
  match s with
  | EmptyString => []
  | String c r => JStr (String c EmptyString) :: chars r
  end.

(** [for x in v]: a list yields its items, a dict its keys, a string its
    characters. *)
Definition iter_json (v : json) : result (list json) :=
  match v with
  | JList l => Ok l
  | JObj kvs => Ok (map (fun kv => JStr (fst kv)) kvs)
  | JStr s => Ok (chars s)
  | _ => Err TypeError
  end.

(** [int(v)]: an int is itself, a bool 0 or 1, a string an optionally
    signed run of digits (surrounding whitespace allowed). *)
Definition py_int (v : json) : result Z :=
  match v with
  | JInt z => Ok z
  | JBool b => Ok (if b then 1 else 0)
  | JStr s =>
      let (neg, r) := parse_sign (strip s) in
      let (ds, rest) := take_digits r in
      match ds, rest with
      | _ :: _, EmptyString => Ok (if neg then - digits_to_Z ds else digits_to_Z ds)
      | _, _ => Err IntValueError
      end
  | _ => Err TypeError
  end.

Fixpoint mapM {A B : Type} (f : A -> result B) (l : list A) : result (list B) :=
  match l with
  | [] => Ok []
  | x :: r => y <- f x ;; ys <- mapM f r ;; Ok (y :: ys)
  end.

(** ** grvt_create_order_api.py: constants *)

Inductive GrvtEnv : Type := DEV | STAGING | TESTNET | PROD.

Definition CHAIN_IDS (env : GrvtEnv) : Z :=
  match env with
  | DEV => 327
  | STAGING => 327
  | TESTNET => 326
  | PROD => 325
  end.

Module TimeInForce.
Inductive t : Type := GOOD_TILL_TIME | ALL_OR_NONE | IMMEDIATE_OR_CANCEL | FILL_OR_KILL.

(** [TimeInForce(v)]: lookup by value, ValueError for any other value. *)
Definition of_value (v : json) : result t :=
  match v with
  | JStr s =>
      if String.eqb s "GOOD_TILL_TIME" then Ok GOOD_TILL_TIME
      else if String.eqb s "ALL_OR_NONE" then Ok ALL_OR_NONE
      else if String.eqb s "IMMEDIATE_OR_CANCEL" then Ok IMMEDIATE_OR_CANCEL
      else if String.eqb s "FILL_OR_KILL" then Ok FILL_OR_KILL
      else Err (BadTimeInForce v)
  | _ => Err (BadTimeInForce v)
  end.

Definition eqb (a b : t) : bool :=
  match a, b with
  | GOOD_TILL_TIME, GOOD_TILL_TIME | ALL_OR_NONE, ALL_OR_NONE
  | IMMEDIATE_OR_CANCEL, IMMEDIATE_OR_CANCEL | FILL_OR_KILL, FILL_OR_KILL => true
  | _, _ => false
  end.
End TimeInForce.

Module SignTimeInForce.
Inductive t : Type := GOOD_TILL_TIME | ALL_OR_NONE | IMMEDIATE_OR_CANCEL | FILL_OR_KILL.

Definition value (x : t) : Z :=
  match x with
  | GOOD_TILL_TIME => 1
  | ALL_OR_NONE => 2
  | IMMEDIATE_OR_CANCEL => 3
  | FILL_OR_KILL => 4
  end.
End SignTimeInForce.

Definition TIME_IN_FORCE_TO_SIGN_TIME_IN_FORCE : list (TimeInForce.t * SignTimeInForce.t) :=
  [(TimeInForce.GOOD_TILL_TIME, SignTimeInForce.GOOD_TILL_TIME);
   (TimeInForce.ALL_OR_NONE, SignTimeInForce.ALL_OR_NONE);
   (TimeInForce.IMMEDIATE_OR_CANCEL, SignTimeInForce.IMMEDIATE_OR_CANCEL);
   (TimeInForce.FILL_OR_KILL, SignTimeInForce.FILL_OR_KILL)].

(** [TIME_IN_FORCE_TO_SIGN_TIME_IN_FORCE[tif]]. *)
Fixpoint lookup_tif (tif : TimeInForce.t) (m : list (TimeInForce.t * SignTimeInForce.t))
  : result SignTimeInForce.t :=
  match m with
  | [] => Err EnumKeyError
  | (k, v) :: r => if TimeInForce.eqb tif k then Ok v else lookup_tif tif r
  end.

Definition PRICE_MULTIPLIER : Z := 1000000000.

Definition field (name type : string) : json :=
  JObj [("name", JStr name); ("type", JStr type)].

Definition EIP712_ORDER_MESSAGE_TYPE : json :=
  JObj [("OrderWithBuilderFee",
          JList [field "subAccountID" "uint64";
                 field "isMarket" "bool";
                 field "timeInForce" "uint8";
                 field "postOnly" "bool";
                 field "reduceOnly" "bool";
                 field "legs" "OrderLeg[]";
                 field "builder" "address";
                 field "builderFee" "uint32";
                 field "nonce" "uint32";
                 field "expiration" "int64"]);
        ("OrderLeg",
          JList [field "assetID" "uint256";
                 field "contractSize" "uint64";
                 field "limitPrice" "uint64";
                 field "isBuyingContract" "bool"])].

(** One entry of the instrument directory built by
    [fetch_instruments_from_api]; [base_decimals] is a non-negative int. *)
Record instrument : Type := {
  instrument_hash : json;
  base_decimals : N
}.

Fixpoint lookup_instrument (k : string) (d : list (string * instrument)) : option instrument :=
  match d with
  | [] => None
  | (k', v) :: r => if String.eqb k k' then Some v else lookup_instrument k r
  end.

(** [if instrument_name not in instruments: raise ValueError(...)]
    followed by [instruments[instrument_name]]: a string key is looked up,
    an unhashable one raises TypeError, any other is never found. *)
Definition find_instrument (instruments : list (string * instrument)) (name : json)
  : result instrument :=
  match name with
  | JStr s => match lookup_instrument s instruments with
              | Some i => Ok i
              | None => Err (InstrumentNotFound name)
              end
  | JList _ | JObj _ => Err TypeError
  | _ => Err (InstrumentNotFound name)
  end.

(** ** build_order_message_data *)

(** The body of the loop over [order["legs"]]. *)
Definition process_leg (instruments : list (string * instrument)) (leg : json) : result json :=
  instrument_name <- getitem leg "instrument" ;;
  inst <- find_instrument instruments instrument_name ;;
  let size_multiplier := 10 ^ Z.of_N (base_decimals inst) in
  size <- getitem leg "size" ;;
  size_int <- PyDecimal.scale size size_multiplier ;;
  limit_price <- getitem leg "limit_price" ;;
  price_int <- PyDecimal.scale limit_price PRICE_MULTIPLIER ;;
  is_buying <- getitem leg "is_buying_asset" ;;
  Ok (JObj [("assetID", instrument_hash inst);
            ("contractSize", JInt size_int);
            ("limitPrice", JInt price_int);
            ("isBuyingContract", is_buying)]).

(** [order_data["order"] if "order" in order_data else order_data]. *)
Definition unwrap_order (order_data : json) : result json :=
  match order_data with
  | JObj kvs => match assoc "order" kvs with
                | Some o => Ok o
                | None => Ok order_data
                end
  | _ => Err TypeError
  end.

Definition build_order_message_data (order_data : json)
  (instruments : list (string * instrument)) : result json :=
  order <- unwrap_order order_data ;;
  legs_in <- getitem order "legs" ;;
  leg_items <- iter_json legs_in ;;
  legs <- mapM (process_leg instruments) leg_items ;;
  time_in_force_str <- get order "time_in_force" (JStr "GOOD_TILL_TIME") ;;
  time_in_force <- TimeInForce.of_value time_in_force_str ;;
  sign_time_in_force <- lookup_tif time_in_force TIME_IN_FORCE_TO_SIGN_TIME_IN_FORCE ;;
  builder_fee <- get order "builder_fee" (JStr "0.001") ;;
  builder_fee_int <- PyDecimal.scale builder_fee 10000 ;;
  sub_account_id <- getitem order "sub_account_id" ;;
  sub_account_int <- py_int sub_account_id ;;
  is_market <- get order "is_market" (JBool false) ;;
  post_only <- get order "post_only" (JBool false) ;;
  reduce_only <- get order "reduce_only" (JBool false) ;;
  builder <- get order "builder" (JStr "") ;;
  sig1 <- getitem order "signature" ;;
  nonce <- getitem sig1 "nonce" ;;
  sig2 <- getitem order "signature" ;;
  expiration <- getitem sig2 "expiration" ;;
  Ok (JObj [("subAccountID", JInt sub_account_int);
            ("isMarket", is_market);
            ("timeInForce", JInt (SignTimeInForce.value sign_time_in_force));
            ("postOnly", post_only);
            ("reduceOnly", reduce_only);
            ("legs", JList legs);
            ("builder", builder);
            ("builderFee", JInt builder_fee_int);
            ("nonce", nonce);
            ("expiration", expiration)]).

Definition ex_instruments : list (string * instrument) :=
  [("BTC_USDT_Perp", {| instrument_hash := JStr "0x030501"; base_decimals := 9 |});
   ("ETH_USDT_Perp", {| instrument_hash := JStr "0x030401"; base_decimals := 9 |})].

Definition ex_leg (name size price : string) (buy : bool) : json :=
  JObj [("instrument", JStr name); ("size", JStr size);
        ("limit_price", JStr price); ("is_buying_asset", JBool buy)].

Definition ex_order (legs : list json) : json :=
  JObj [("order",
    JObj [("sub_account_id", JStr "8289849667772468");
          ("is_market", JBool false);
          ("time_in_force", JStr "GOOD_TILL_TIME");
          ("post_only", JBool false);
          ("reduce_only", JBool false);
          ("legs", JList legs);
          ("builder", JStr "0xabc");
          ("builder_fee", JStr "0.001");
          ("signature", JObj [("signer", JStr ""); ("r", JStr ""); ("s", JStr "");
                              ("v", JInt 0); ("expiration", JStr "1730800479321350000");
                              ("nonce", JInt 828700936)])])].

(** ** eth_account typed-data encoding (library model)

    [encode_typed_data(domain_data, message_types, message_data)] derives
    the EIP712Domain field list from the keys of [domain_data] in the
    canonical order name, version, chainId, verifyingContract, salt, and
    the primary type as the only type of [message_types] that no field of
    another type refers to; the struct hashes themselves are abstract. *)

Definition EIP712_DOMAIN_FIELDS : list (string * string) :=
  [("name", "string"); ("version", "string"); ("chainId", "uint256");
   ("verifyingContract", "address"); ("salt", "bytes32")].

Definition domain_types (domain_data : json) : json :=
  match domain_data with
  | JObj kvs =>
      JList (map (fun nt => field (fst nt) (snd nt))
               (filter (fun nt => match assoc (fst nt) kvs with Some _ => true | None => false end)
                  EIP712_DOMAIN_FIELDS))
  | _ => JList []
  end.

(** The base name of a type string: everything before the first '['. *)
Fixpoint base_type (s : string) : string :=
  match s with
  | EmptyString => EmptyString
  | String c r => if (c =? "[")%char then EmptyString else String c (base_type r)
  end.

Definition field_type (f : json) : string :=
  match f with
  | JObj kvs => match assoc "type" kvs with Some (JStr t) => t | _ => EmptyString end
  | _ => EmptyString
  end.

Definition field_name (f : json) : string :=
  match f with
  | JObj kvs => match assoc "name" kvs with Some (JStr t) => t | _ => EmptyString end
  | _ => EmptyString
  end.

Definition fields_of (v : json) : list json :=
  match v with JList l => l | _ => [] end.

(** Is the custom type [t] referred to by a field of some type of [types]? *)
Definition is_dependency (types : list (string * json)) (t : string) : bool :=
  existsb (fun kv => existsb (fun f => String.eqb (base_type (field_type f)) t)
                       (fields_of (snd kv))) types.

Definition get_primary_type (message_types : json) : result string :=
  match message_types with
  | JObj types =>
      match filter (fun t => negb (is_dependency types t)) (map fst types) with
      | [t] => Ok t
      | _ => Err PrimaryTypeError
      end
  | _ => Err TypeError
  end.

(** [r.to_bytes(32, "big").hex()] prefixed by "0x". *)
Definition hex_digit (n : Z) : ascii :=
  if n <? 10 then ascii_of_nat (Z.to_nat (48 + n)) else ascii_of_nat (Z.to_nat (87 + n)).

Fixpoint hex_digits (k : nat) (n : Z) (acc : string) : string :=
  match k with
  | O => acc
  | S k' => hex_digits k' (n / 16) (String (hex_digit (n mod 16)) acc)
  end.

Definition hex32 (n : Z) : result string :=
  if (n <? 0) || (2 ^ 256 <=? n) then Err IntOverflowError
  else Ok (String.append "0x" (hex_digits 64 n EmptyString)).

Definition get_eip712_domain_data (env : GrvtEnv) : json :=
  JObj [("name", JStr "GRVT Exchange"); ("version", JStr "0"); ("chainId", JInt (CHAIN_IDS env))].

(** ** sign_order *)

Section Signing.

(** [hash_struct primary_type types data]: eth_account's EIP-712 struct
    hash (ABI encoding and keccak), which may reject ill-typed data. *)
Variable hash_struct : string -> json -> json -> result Z.
(** [Account.from_key], [account.address] and [account.sign_message]. *)
Variable account : Type.
Variable account_from_key : string -> result account.
Variable account_address : account -> string.
Variable account_sign : account -> Z * Z -> Z * Z * Z.

(** [encode_typed_data(domain_data, message_types, message_data)]: the
    domain separator and the message hash, both under [hash_struct]. *)
Definition encode_typed_data (domain_data message_types message_data : json) : result (Z * Z) :=
  dom <- hash_struct "EIP712Domain" (JObj [("EIP712Domain", domain_types domain_data)]) domain_data ;;
  primary_type <- get_primary_type message_types ;;
  msg <- hash_struct primary_type message_types message_data ;;
  Ok (dom, msg).

Definition strip_0x (s : string) : string :=
  match s with
  | String "0" (String "x" r) => r
  | _ => s
  end.

(** [dict.copy()]. *)
Definition copy (d : json) : result (list (string * json)) :=
  match d with
  | JObj kvs => Ok kvs
  | _ => Err AttributeError
  end.

Definition sign_order (order_data : json) (instruments : list (string * instrument))
  (private_key : string) (env : GrvtEnv) : result json :=
  let private_key := strip_0x private_key in
  message_data <- build_order_message_data order_data instruments ;;
  let domain_data := get_eip712_domain_data env in
  signable_message <- encode_typed_data domain_data EIP712_ORDER_MESSAGE_TYPE message_data ;;
  acct <- account_from_key private_key ;;
  let '(r, s, v) := account_sign acct signable_message in
  r_hex <- hex32 r ;;
  s_hex <- hex32 s ;;
  order <- unwrap_order order_data ;;
  order <- copy order ;;
  old_sig1 <- getitem (JObj order) "signature" ;;
  expiration <- getitem old_sig1 "expiration" ;;
  old_sig2 <- getitem (JObj order) "signature" ;;
  nonce <- getitem old_sig2 "nonce" ;;
  let signature := JObj [("r", JStr r_hex); ("s", JStr s_hex); ("v", JInt v);
                         ("expiration", expiration); ("nonce", nonce);
                         ("signer", JStr (account_address acct))] in
  Ok (JObj [("order", JObj (dict_set "signature" signature order))]).

End Signing.

(** ** authorize.py *)

Module Authorize.

Record EnvConfig : Type := {
  name : string;
  edge_base : string;
  trades_base : string;
  chain_id : Z
}.

Definition ENVS : list (string * EnvConfig) :=
  [("dev", {| name := "dev"; edge_base := "https://edge.dev.gravitymarkets.io";
              trades_base := "https://trades.dev.gravitymarkets.io"; chain_id := 327 |});
   ("staging", {| name := "staging"; edge_base := "https://edge.staging.gravitymarkets.io";
                  trades_base := "https://trades.staging.gravitymarkets.io"; chain_id := 327 |});
   ("testnet", {| name := "testnet"; edge_base := "https://edge.testnet.grvt.io";
                  trades_base := "https://trades.testnet.grvt.io"; chain_id := 326 |});
   ("prod", {| name := "prod"; edge_base := "https://edge.grvt.io";
               trades_base := "https://trades.grvt.io"; chain_id := 325 |})].

Definition starts_with_0x (s : string) : bool :=
  match s with
  | String "0" (String "x" _) => true
  | _ => false
  end.

(** [_ensure_0x] of authorize.py: strip, prefix "0x" if missing, lower-case. *)
Definition _ensure_0x (s0 : string) : string :=
  let s := strip s0 in
  let s := if starts_with_0x s then s else String.append "0x" s in
  lower s.

Definition build_eip712_payload (main_account_id builder_account_id signer_address permissions : string)
  (max_future_fee_rate_uint32 max_spot_fee_rate_uint32 nonce_uint32 expiration_unix_ns
   domain_chain_id : Z) : json :=
  JObj [("domain", JObj [("chainId", JInt domain_chain_id); ("name", JStr "GRVT Exchange");
                         ("version", JStr "0")]);
        ("message", JObj [("accountID", JStr main_account_id);
                          ("signer", JStr signer_address);
                          ("permissions", JStr permissions);
                          ("builderAccountID", JStr builder_account_id);
                          ("maxFutureFeeRate", JInt max_future_fee_rate_uint32);
                          ("maxSpotFeeRate", JInt max_spot_fee_rate_uint32);
                          ("nonce", JInt nonce_uint32);
                          ("expiration", JInt expiration_unix_ns)]);
        ("primaryType", JStr "AddAccountSignerWithBuilder");
        ("types", JObj [("EIP712Domain", JList [field "name" "string";
                                                field "version" "string";
                                                field "chainId" "uint256"]);
                        ("AddAccountSignerWithBuilder",
                          JList [field "accountID" "address";
                                 field "signer" "address";
                                 field "permissions" "string";
                                 field "builderAccountID" "address";
                                 field "maxFutureFeeRate" "uint32";
                                 field "maxSpotFeeRate" "uint32";
                                 field "nonce" "uint32";
                                 field "expiration" "int64"])])].

(** [int(float(fee) * 10_000)], the fee-rate conversion of
    [authorize_builder]. *)
Definition fee_rate_uint32 (fee : string) : result Z :=
  f <- PyFloat.of_string fee ;;
  k <- PyFloat.of_int 10000 ;;
  PyFloat.to_int (PyFloat.mul f k).

(** The typed payload [authorize_builder] signs.  The signer address
    derived from the builder API key, the random nonce and the clock-based
    expiration are inputs here. *)
Definition authorize_builder_typed (env : EnvConfig)
  (main_account_id builder_account_id signer_addr permissions
   max_futures_fee_rate max_spot_fee_rate : string)
  (nonce expiration_ns : Z) : result json :=
  mf_uint32 <- fee_rate_uint32 max_futures_fee_rate ;;
  ms_uint32 <- fee_rate_uint32 max_spot_fee_rate ;;
  Ok (build_eip712_payload (_ensure_0x main_account_id) (_ensure_0x builder_account_id)
        (_ensure_0x signer_addr) permissions mf_uint32 ms_uint32 nonce expiration_ns
        (chain_id env)).

End Authorize.

(** ** Projections used in the statements *)

Definition lookup (j : json) (k : string) : option json :=
  match j with
  | JObj kvs => assoc k kvs
  | _ => None
  end.

Fixpoint lookup_path (j : json) (ks : list string) : option json :=
  match ks with
  | [] => Some j
  | k :: r => match lookup j k with
              | Some v => lookup_path v r
              | None => None
              end
  end.

Definition keys (j : json) : list string :=
  match j with
  | JObj kvs => map fst kvs
  | _ => []
  end.

(** The (name, type) pairs of a list of EIP-712 field declarations. *)
Definition schema (j : json) : list (string * string) :=
  map (fun f => (field_name f, field_type f)) (fields_of j).

Definition res_lookup_path (r : result json) (ks : list string) : option json :=
  match r with
  | Ok j => lookup_path j ks
  | Err _ => None
  end.

(** The [i]-th leg of a built message. *)
Definition leg_field (r : result json) (i : nat) (k : string) : option json :=
  match res_lookup_path r ["legs"] with
  | Some (JList ls) => match nth_error ls i with
                       | Some l => lookup l k
                       | None => None
                       end
  | _ => None
  end.

(** ** Proof tools *)

Ltac inv_bind H :=
  repeat match type of H with
  | bind ?m _ = Ok _ =>
      let E := fresh "E" in
      destruct m eqn:E; [cbn [bind] in H | discriminate H]
  | (let '(_, _) := ?p in _) = Ok _ =>
      let E := fresh "E" in destruct p eqn:E
  end.

Lemma bind_ok {A B} (m : result A) (k : A -> result B) b :
  bind m k = Ok b -> exists a, m = Ok a /\ k a = Ok b.
Proof. destruct m; cbn; [eauto | discriminate]. Qed.

Lemma mapM_Forall {A B} (f : A -> result B) (P : B -> Prop) :
  (forall x y, f x = Ok y -> P y) ->
  forall l ys, mapM f l = Ok ys -> Forall P ys.
Proof.
  intros Hf l; induction l as [|x l IH]; intros ys H; cbn in H.
  - injection H as <-; constructor.
  - inv_bind H. injection H as <-. constructor; eauto.
Qed.

Lemma mapM_ok_in {A B} (f : A -> result B) :
  forall l ys, mapM f l = Ok ys -> forall x, In x l -> exists y, f x = Ok y.
Proof.
  induction l as [|x l IH]; intros ys H z Hz; cbn in *; [contradiction|].
  inv_bind H. destruct Hz as [<-|Hz]; eauto.
Qed.

Lemma mapM_app_err {A B} (f : A -> result B) pre x post e :
  Forall (fun y => exists b, f y = Ok b) pre ->
  f x = Err e ->
  mapM f (app pre (x :: post)) = Err e.
Proof.
  intros Hpre Hx; induction Hpre as [|y pre [b Hb] _ IH]; cbn.
  - rewrite Hx; reflexivity.
  - rewrite Hb; cbn; rewrite IH; reflexivity.
Qed.

(** *** Decimal scaling *)

Lemma ndigits_aux_le fuel : forall n p d D,
  p = 10 ^ d -> 0 <= d -> n < 10 ^ D -> d <= D ->
  PyDecimal.ndigits_aux fuel n p d <= D.
Proof.
  induction fuel as [|fuel IH]; intros n p d D Hp Hd HnD HdD; cbn; [lia|].
  destruct (n <? p) eqn:Hlt; [lia|].
  apply Z.ltb_ge in Hlt.
  apply IH; [rewrite Hp, Z.pow_add_r, Z.pow_1_r by lia; ring | lia | lia |].
  destruct (Z.le_gt_cases D d) as [Hle|]; [|lia].
  assert (10 ^ D <= 10 ^ d) by (apply Z.pow_le_mono_r; lia). lia.
Qed.

Lemma ndigits_le_28 n : n < 10 ^ 28 -> PyDecimal.ndigits n <= 28.
Proof.
  intros H; unfold PyDecimal.ndigits.
  apply ndigits_aux_le; [reflexivity | lia | exact H | lia].
Qed.

(** Scaling a decimal literal [c * 10 ^ e] by [k]: when the product has at
    most 28 digits (no context rounding) and its exponent cannot overflow,
    the result is the exact product truncated toward zero. *)
Lemma scale_exact_quot s c e k :
  PyDecimal.parse_decimal s = Some (PyDecimal.DFinite c e) ->
  Z.abs (c * k) < 10 ^ 28 -> e <= 999972 ->
  PyDecimal.scale (JStr s) k = Ok (Z.quot (c * k * 10 ^ Z.max e 0) (10 ^ Z.max (- e) 0)).
Proof.
  intros Hp Hc He.
  unfold PyDecimal.scale, PyDecimal.of_json; rewrite Hp; cbn [bind].
  unfold PyDecimal.dec_mul, PyDecimal.dec_round.
  rewrite Z.add_0_r.
  pose proof (ndigits_le_28 _ Hc) as Hnd.
  replace (PyDecimal.PREC <? PyDecimal.ndigits (Z.abs (c * k))) with false
    by (symmetry; apply Z.ltb_ge; unfold PyDecimal.PREC; lia).
  destruct (Z.abs (c * k) =? 0) eqn:H0.
  - apply Z.eqb_eq in H0. assert (Hck : c * k = 0) by lia.
    cbn [bind PyDecimal.dec_to_int]. rewrite Hck.
    assert (10 ^ Z.max (- e) 0 <> 0) by (apply Z.pow_nonzero; lia).
    destruct (0 <=? e); cbn; rewrite ?Z.quot_0_l; auto.
  - replace (PyDecimal.EMAX <? e + PyDecimal.ndigits (Z.abs (c * k)) - 1) with false
      by (symmetry; apply Z.ltb_ge; unfold PyDecimal.EMAX; lia).
    cbn [bind PyDecimal.dec_to_int].
    replace (if c * k <? 0 then - Z.abs (c * k) else Z.abs (c * k)) with (c * k)
      by (destruct (Z.ltb_spec (c * k) 0); lia).
    destruct (Z.leb_spec 0 e).
    + rewrite Z.max_l, Z.max_r by lia. rewrite Z.pow_0_r, Z.quot_1_r. reflexivity.
    + rewrite Z.max_r, Z.max_l by lia. rewrite Z.pow_0_r, Z.mul_1_r. reflexivity.
Qed.

Lemma quot_trunc_bounds n d :
  0 < d ->
  (0 <= n -> Z.quot n d * d <= n < (Z.quot n d + 1) * d) /\
  (n <= 0 -> (Z.quot n d - 1) * d < n <= Z.quot n d * d).
Proof.
  intros Hd.
  pose proof (Z.quot_rem' n d) as Hqr.
  split; intros Hn.
  - pose proof (Z.rem_bound_pos n d Hn Hd). lia.
  - assert (Hb : 0 <= Z.rem (- n) d < d) by (apply Z.rem_bound_pos; lia).
    rewrite Z.rem_opp_l in Hb by lia. lia.
Qed.

(** *** Build inversion *)

Lemma process_leg_keys dir leg l :
  process_leg dir leg = Ok l ->
  keys l = ["assetID"; "contractSize"; "limitPrice"; "isBuyingContract"].
Proof.
  unfold process_leg; intros H. inv_bind H. injection H as <-. reflexivity.
Qed.

Definition ORDER_MESSAGE_KEYS : list string :=
  ["subAccountID"; "isMarket"; "timeInForce"; "postOnly"; "reduceOnly"; "legs";
   "builder"; "builderFee"; "nonce"; "expiration"].

Definition LEG_KEYS : list string :=
  ["assetID"; "contractSize"; "limitPrice"; "isBuyingContract"].

(** [order.get(k, d)] on a dict. *)
Definition dflt (kvs : list (string * json)) (k : string) (d : json) : json :=
  match assoc k kvs with
  | Some v => v
  | None => d
  end.

Lemma get_obj kvs k d : get (JObj kvs) k d = Ok (dflt kvs k d).
Proof. unfold get, dflt; destruct (assoc k kvs); reflexivity. Qed.

(** Everything [build_order_message_data] did when it returned a message. *)
Lemma build_ok_inv od dir m :
  build_order_message_data od dir = Ok m ->
  exists kvs legs_in items legs tif stif fee_int sub sub_int sg1 sg2 nonce expiration,
    unwrap_order od = Ok (JObj kvs) /\
    assoc "legs" kvs = Some legs_in /\
    iter_json legs_in = Ok items /\
    mapM (process_leg dir) items = Ok legs /\
    TimeInForce.of_value (dflt kvs "time_in_force" (JStr "GOOD_TILL_TIME")) = Ok tif /\
    lookup_tif tif TIME_IN_FORCE_TO_SIGN_TIME_IN_FORCE = Ok stif /\
    PyDecimal.scale (dflt kvs "builder_fee" (JStr "0.001")) 10000 = Ok fee_int /\
    assoc "sub_account_id" kvs = Some sub /\
    py_int sub = Ok sub_int /\
    assoc "signature" kvs = Some sg1 /\
    getitem sg1 "nonce" = Ok nonce /\
    assoc "signature" kvs = Some sg2 /\
    getitem sg2 "expiration" = Ok expiration /\
    m = JObj [("subAccountID", JInt sub_int);
              ("isMarket", dflt kvs "is_market" (JBool false));
              ("timeInForce", JInt (SignTimeInForce.value stif));
              ("postOnly", dflt kvs "post_only" (JBool false));
              ("reduceOnly", dflt kvs "reduce_only" (JBool false));
              ("legs", JList legs);
              ("builder", dflt kvs "builder" (JStr ""));
              ("builderFee", JInt fee_int);
              ("nonce", nonce);
              ("expiration", expiration)].
Proof.
  unfold build_order_message_data; intros H.
  inv_bind H.
  match goal with
  | E : getitem ?o "legs" = Ok _ |- _ => destruct o as [| | | | |kvs]; try discriminate E
  end.
  rewrite !get_obj in *.
  repeat match goal with
  | E : Ok _ = Ok _ |- _ => injection E as E; subst
  end.
  unfold getitem in *.
  repeat match goal with
  | E : match assoc ?k kvs with Some _ => _ | None => _ end = Ok _ |- _ =>
      destruct (assoc k kvs) eqn:?; [injection E as E; subst | discriminate E]
  end.
  do 13 eexists; repeat split; eauto.
Qed.

(** [TimeInForce(v)] followed by the mapping and [.value], as
    build_order_message_data bridges the two enums. *)
Definition tif_sign_value (v : json) : result Z :=
  tif <- TimeInForce.of_value v ;;
  stif <- lookup_tif tif TIME_IN_FORCE_TO_SIGN_TIME_IN_FORCE ;;
  Ok (SignTimeInForce.value stif).

Definition TIF_NAMES : list json :=
  [JStr "GOOD_TILL_TIME"; JStr "ALL_OR_NONE"; JStr "IMMEDIATE_OR_CANCEL"; JStr "FILL_OR_KILL"].

Lemma of_value_unknown v : ~ In v TIF_NAMES -> TimeInForce.of_value v = Err (BadTimeInForce v).
Proof.
  intros Hv; destruct v as [| | |s| |]; try reflexivity.
  cbn.
  destruct (String.eqb_spec s "GOOD_TILL_TIME"); [subst; cbn in Hv; tauto|].
  destruct (String.eqb_spec s "ALL_OR_NONE"); [subst; cbn in Hv; tauto|].
  destruct (String.eqb_spec s "IMMEDIATE_OR_CANCEL"); [subst; cbn in Hv; tauto|].
  destruct (String.eqb_spec s "FILL_OR_KILL"); [subst; cbn in Hv; tauto|].
  reflexivity.
Qed.

(** ** Settled claims *)

(** *** C1: scaling *)

(** C1 (as stated, refuted): the scaling is not rounding to nearest.  A
    limit price of "0.0000000019" is 1.9 price units; the nearest integer
    is 2, build_order_message_data puts 1 in the message. *)
Lemma C1_truncates_not_nearest :
  leg_field (build_order_message_data
               (ex_order [ex_leg "BTC_USDT_Perp" "0.01" "0.0000000019" true]) ex_instruments)
            0 "limitPrice" = Some (JInt 1) /\
  Z.abs (2 * 10 - 19) < Z.abs (1 * 10 - 19).
Proof. split; [vm_compute; reflexivity | lia]. Qed.

(** C1 (amended): in build_order_message_data, [int(Decimal(d) * Decimal(k))]
    is the exact product [d * k] truncated toward zero whenever that
    product has at most 28 digits and an exponent that cannot overflow:
    with [N / D] the exact product, the result [r] satisfies
    [r * D <= N < (r + 1) * D] for [N >= 0] and [(r - 1) * D < N <= r * D]
    for [N <= 0].  The fee-rate conversion of authorize_builder uses
    binary floats instead: "0.0003" gives 2, below the exact 3. *)
Theorem C1_scale_truncates_exact_product s c e k :
  PyDecimal.parse_decimal s = Some (PyDecimal.DFinite c e) ->
  0 < k -> Z.abs (c * k) < 10 ^ 28 -> e <= 999972 ->
  (exists r, PyDecimal.scale (JStr s) k = Ok r /\
     (0 <= c * k * 10 ^ Z.max e 0 ->
        r * 10 ^ Z.max (- e) 0 <= c * k * 10 ^ Z.max e 0 < (r + 1) * 10 ^ Z.max (- e) 0) /\
     (c * k * 10 ^ Z.max e 0 <= 0 ->
        (r - 1) * 10 ^ Z.max (- e) 0 < c * k * 10 ^ Z.max e 0 <= r * 10 ^ Z.max (- e) 0)) /\
  Authorize.fee_rate_uint32 "0.0003" = Ok 2.
Proof.
  intros Hp _ Hc He. split; [|vm_compute; reflexivity].
  eexists; split; [apply (scale_exact_quot s c e k Hp Hc He)|].
  apply quot_trunc_bounds. apply Z.pow_pos_nonneg; lia.
Qed.

Lemma C1_scale_truncates_exact_product_witness :
  PyDecimal.parse_decimal "0.0000000019" = Some (PyDecimal.DFinite 19 (-10)) /\
  ((exists r, PyDecimal.scale (JStr "0.0000000019") PRICE_MULTIPLIER = Ok r /\
     (0 <= 19 * PRICE_MULTIPLIER * 10 ^ Z.max (-10) 0 ->
        r * 10 ^ Z.max (- -10) 0 <= 19 * PRICE_MULTIPLIER * 10 ^ Z.max (-10) 0
          < (r + 1) * 10 ^ Z.max (- -10) 0) /\
     (19 * PRICE_MULTIPLIER * 10 ^ Z.max (-10) 0 <= 0 ->
        (r - 1) * 10 ^ Z.max (- -10) 0 < 19 * PRICE_MULTIPLIER * 10 ^ Z.max (-10) 0
          <= r * 10 ^ Z.max (- -10) 0)) /\
   Authorize.fee_rate_uint32 "0.0003" = Ok 2).
Proof.
  split; [vm_compute; reflexivity|].
  apply (C1_scale_truncates_exact_product "0.0000000019" 19 (-10) PRICE_MULTIPLIER);
    [vm_compute; reflexivity | unfold PRICE_MULTIPLIER; lia | vm_compute; reflexivity | lia].
Defined.

(** *** C2: the default fee rates *)

Definition ex_env : Authorize.EnvConfig :=
  {| Authorize.name := "testnet"; Authorize.edge_base := "https://edge.testnet.grvt.io";
     Authorize.trades_base := "https://trades.testnet.grvt.io"; Authorize.chain_id := 326 |}.

Definition ex_order_1 : json := ex_order [ex_leg "BTC_USDT_Perp" "0.01" "65038.01" true].

Definition ex_order_1_kvs : list (string * json) :=
  match unwrap_order ex_order_1 with Ok (JObj kvs) => kvs | _ => [] end.

Definition ex_message_1 : json :=
  match build_order_message_data ex_order_1 ex_instruments with Ok m => m | Err _ => JNull end.

(** C2: authorize_builder turns maxFutureFeeRate "0.001" and maxSpotFeeRate
    "0.0001" into the uint32 values 10 and 1 of the signed payload, and the
    order path turns a builder_fee of "0.001" or "0.0001" into builderFee
    10 or 1; the multiplier is 10,000 on both paths. *)
Theorem C2_fee_rates_scale_to_10_and_1 env main_id builder_id signer perms nonce expiration
  od dir m kvs fee :
  build_order_message_data od dir = Ok m ->
  unwrap_order od = Ok (JObj kvs) ->
  assoc "builder_fee" kvs = Some (JStr fee) ->
  fee = "0.001" \/ fee = "0.0001" ->
  (exists p, Authorize.authorize_builder_typed env main_id builder_id signer perms
               "0.001" "0.0001" nonce expiration = Ok p /\
     lookup_path p ["message"; "maxFutureFeeRate"] = Some (JInt 10) /\
     lookup_path p ["message"; "maxSpotFeeRate"] = Some (JInt 1)) /\
  lookup m "builderFee" = Some (JInt (if String.eqb fee "0.001" then 10 else 1)).
Proof.
  intros Hb Hu Hf Hfee. split.
  - eexists; split; [reflexivity | split; reflexivity].
  - apply build_ok_inv in Hb.
    destruct Hb as (kvs' & ? & ? & ? & ? & ? & fee_int & ? & ? & ? & ? & ? & ? &
                    Hu' & _ & _ & _ & _ & _ & Hs & _ & _ & _ & _ & _ & _ & ->).
    rewrite Hu in Hu'; injection Hu' as <-.
    unfold dflt in Hs; rewrite Hf in Hs.
    cbn.
    destruct Hfee as [->| ->]; vm_compute in Hs; injection Hs as <-; reflexivity.
Qed.

Lemma C2_fee_rates_scale_to_10_and_1_witness :
  (exists p, Authorize.authorize_builder_typed ex_env "0xabc" "0xdef" "0x123" "Trade"
               "0.001" "0.0001" 5 7 = Ok p /\
     lookup_path p ["message"; "maxFutureFeeRate"] = Some (JInt 10) /\
     lookup_path p ["message"; "maxSpotFeeRate"] = Some (JInt 1)) /\
  lookup ex_message_1 "builderFee" = Some (JInt (if String.eqb "0.001" "0.001" then 10 else 1)).
Proof.
  apply (C2_fee_rates_scale_to_10_and_1 ex_env "0xabc" "0xdef" "0x123" "Trade" 5 7
           ex_order_1 ex_instruments ex_message_1 ex_order_1_kvs "0.001");
    [vm_compute; reflexivity | vm_compute; reflexivity | vm_compute; reflexivity | left; reflexivity].
Defined.

(** *** C3: the authorization payload *)

(** C3: whatever its inputs, build_eip712_payload returns a payload of
    primary type AddAccountSignerWithBuilder whose message and schema list
    accountID, signer, permissions, builderAccountID, maxFutureFeeRate,
    maxSpotFeeRate, nonce, expiration in this order with the types address,
    address, string, address, uint32, uint32, uint32, int64, and whose
    domain is "GRVT Exchange", version "0", with a uint256 chainId equal to
    the chain id passed in; authorize_builder passes its environment's. *)
Theorem C3_authorization_payload_shape main_id builder_id signer perms mf ms nonce expiration chain :
  let p := Authorize.build_eip712_payload main_id builder_id signer perms mf ms nonce expiration chain in
  lookup p "primaryType" = Some (JStr "AddAccountSignerWithBuilder") /\
  option_map keys (lookup p "message") =
    Some ["accountID"; "signer"; "permissions"; "builderAccountID"; "maxFutureFeeRate";
          "maxSpotFeeRate"; "nonce"; "expiration"] /\
  option_map schema (lookup_path p ["types"; "AddAccountSignerWithBuilder"]) =
    Some [("accountID", "address"); ("signer", "address"); ("permissions", "string");
          ("builderAccountID", "address"); ("maxFutureFeeRate", "uint32");
          ("maxSpotFeeRate", "uint32"); ("nonce", "uint32"); ("expiration", "int64")] /\
  option_map schema (lookup_path p ["types"; "EIP712Domain"]) =
    Some [("name", "string"); ("version", "string"); ("chainId", "uint256")] /\
  lookup_path p ["domain"; "name"] = Some (JStr "GRVT Exchange") /\
  lookup_path p ["domain"; "version"] = Some (JStr "0") /\
  lookup_path p ["domain"; "chainId"] = Some (JInt chain) /\
  (forall env mfs mss,
     match Authorize.authorize_builder_typed env main_id builder_id signer perms mfs mss nonce expiration with
     | Ok q => lookup_path q ["domain"; "chainId"] = Some (JInt (Authorize.chain_id env))
     | Err _ => True
     end).
Proof.
  intros p; repeat split.
  intros env mfs mss; unfold Authorize.authorize_builder_typed.
  destruct (Authorize.fee_rate_uint32 mfs); cbn [bind]; [|exact I].
  destruct (Authorize.fee_rate_uint32 mss); cbn [bind]; [reflexivity | exact I].
Qed.

(** *** C4: the order payload *)

(** C4: sign_order signs under the type schema [EIP712_ORDER_MESSAGE_TYPE],
    whose primary type is OrderWithBuilderFee with a legs field of type
    OrderLeg[]; every message build_order_message_data returns lists
    subAccountID, isMarket, timeInForce, postOnly, reduceOnly, legs,
    builder, builderFee, nonce, expiration in this order, and each of its
    legs assetID, contractSize, limitPrice, isBuyingContract. *)
Theorem C4_order_payload_shape od dir m :
  build_order_message_data od dir = Ok m ->
  get_primary_type EIP712_ORDER_MESSAGE_TYPE = Ok "OrderWithBuilderFee" /\
  option_map schema (lookup EIP712_ORDER_MESSAGE_TYPE "OrderWithBuilderFee") =
    Some [("subAccountID", "uint64"); ("isMarket", "bool"); ("timeInForce", "uint8");
          ("postOnly", "bool"); ("reduceOnly", "bool"); ("legs", "OrderLeg[]");
          ("builder", "address"); ("builderFee", "uint32"); ("nonce", "uint32");
          ("expiration", "int64")] /\
  option_map schema (lookup EIP712_ORDER_MESSAGE_TYPE "OrderLeg") =
    Some [("assetID", "uint256"); ("contractSize", "uint64"); ("limitPrice", "uint64");
          ("isBuyingContract", "bool")] /\
  keys m = ORDER_MESSAGE_KEYS /\
  (exists legs, lookup m "legs" = Some (JList legs) /\ Forall (fun l => keys l = LEG_KEYS) legs).
Proof.
  intros Hb.
  apply build_ok_inv in Hb.
  destruct Hb as (kvs & legs_in & items & legs & ? & ? & ? & ? & ? & ? & ? & ? & ? &
                  _ & _ & _ & Hl & _ & _ & _ & _ & _ & _ & _ & _ & _ & ->).
  split; [vm_compute; reflexivity|].
  do 3 (split; [reflexivity|]).
  exists legs; split; [reflexivity|].
  exact (mapM_Forall _ _ (process_leg_keys dir) items legs Hl).
Qed.

Lemma C4_order_payload_shape_witness :
  get_primary_type EIP712_ORDER_MESSAGE_TYPE = Ok "OrderWithBuilderFee" /\
  option_map schema (lookup EIP712_ORDER_MESSAGE_TYPE "OrderWithBuilderFee") =
    Some [("subAccountID", "uint64"); ("isMarket", "bool"); ("timeInForce", "uint8");
          ("postOnly", "bool"); ("reduceOnly", "bool"); ("legs", "OrderLeg[]");
          ("builder", "address"); ("builderFee", "uint32"); ("nonce", "uint32");
          ("expiration", "int64")] /\
  option_map schema (lookup EIP712_ORDER_MESSAGE_TYPE "OrderLeg") =
    Some [("assetID", "uint256"); ("contractSize", "uint64"); ("limitPrice", "uint64");
          ("isBuyingContract", "bool")] /\
  keys ex_message_1 = ORDER_MESSAGE_KEYS /\
  (exists legs, lookup ex_message_1 "legs" = Some (JList legs) /\
                Forall (fun l => keys l = LEG_KEYS) legs).
Proof.
  apply (C4_order_payload_shape ex_order_1 ex_instruments ex_message_1).
  vm_compute; reflexivity.
Defined.

(** *** C5: time-in-force bridging *)

Lemma of_value_ok_in v t : TimeInForce.of_value v = Ok t -> In v TIF_NAMES.
Proof.
  destruct v as [| | |s| |]; cbn; try discriminate.
  destruct (String.eqb_spec s "GOOD_TILL_TIME"); [subst; auto|].
  destruct (String.eqb_spec s "ALL_OR_NONE"); [subst; auto|].
  destruct (String.eqb_spec s "IMMEDIATE_OR_CANCEL"); [subst; auto 6|].
  destruct (String.eqb_spec s "FILL_OR_KILL"); [subst; auto 6|].
  discriminate.
Qed.

Lemma getitem_obj kvs k v : assoc k kvs = Some v -> getitem (JObj kvs) k = Ok v.
Proof. intros H; cbn; rewrite H; reflexivity. Qed.

(** C5: the mapping is total on TimeInForce and sends GOOD_TILL_TIME,
    ALL_OR_NONE, IMMEDIATE_OR_CANCEL, FILL_OR_KILL to 1, 2, 3, 4 and no
    other string to anything; build_order_message_data never returns a
    message for an order whose time_in_force is outside these names, and
    once its legs are processed it fails with the ValueError of
    [TimeInForce(v)], the malformed-payload error, for that value. *)
Theorem C5_time_in_force_bridging od dir kvs legs_in items legs :
  unwrap_order od = Ok (JObj kvs) ->
  assoc "legs" kvs = Some legs_in ->
  iter_json legs_in = Ok items ->
  mapM (process_leg dir) items = Ok legs ->
  ~ In (dflt kvs "time_in_force" (JStr "GOOD_TILL_TIME")) TIF_NAMES ->
  (forall t, exists st, lookup_tif t TIME_IN_FORCE_TO_SIGN_TIME_IN_FORCE = Ok st) /\
  (forall s z, tif_sign_value (JStr s) = Ok z <->
     In (s, z) [("GOOD_TILL_TIME", 1); ("ALL_OR_NONE", 2); ("IMMEDIATE_OR_CANCEL", 3);
                ("FILL_OR_KILL", 4)]) /\
  (forall od' dir' m kvs', build_order_message_data od' dir' = Ok m ->
     unwrap_order od' = Ok (JObj kvs') ->
     In (dflt kvs' "time_in_force" (JStr "GOOD_TILL_TIME")) TIF_NAMES) /\
  build_order_message_data od dir =
    Err (BadTimeInForce (dflt kvs "time_in_force" (JStr "GOOD_TILL_TIME"))).
Proof.
  intros Hu Hl Hi Hm Hn. split; [|split; [|split]].
  - intros []; eexists; reflexivity.
  - intros s z; unfold tif_sign_value; cbn.
    destruct (String.eqb_spec s "GOOD_TILL_TIME") as [->|];
    [cbn; split; [intros H; injection H as <-; auto|
                  intros [H|[H|[H|[H|[]]]]]; injection H; intros; subst; try discriminate; auto]|].
    destruct (String.eqb_spec s "ALL_OR_NONE") as [->|];
    [cbn; split; [intros H; injection H as <-; auto|
                  intros [H|[H|[H|[H|[]]]]]; injection H; intros; subst; try discriminate; auto]|].
    destruct (String.eqb_spec s "IMMEDIATE_OR_CANCEL") as [->|];
    [cbn; split; [intros H; injection H as <-; auto|
                  intros [H|[H|[H|[H|[]]]]]; injection H; intros; subst; try discriminate; auto]|].
    destruct (String.eqb_spec s "FILL_OR_KILL") as [->|];
    [cbn; split; [intros H; injection H as <-; auto|
                  intros [H|[H|[H|[H|[]]]]]; injection H; intros; subst; try discriminate; auto]|].
    split; [discriminate|].
    intros [H|[H|[H|[H|[]]]]]; injection H; intros; subst; contradiction.
  - intros od' dir' m kvs' Hb Hu'.
    apply build_ok_inv in Hb.
    destruct Hb as (kvs'' & ? & ? & ? & tif & ? & ? & ? & ? & ? & ? & ? & ? &
                    Hu'' & _ & _ & _ & Ht & _).
    rewrite Hu' in Hu''; injection Hu'' as <-.
    exact (of_value_ok_in _ _ Ht).
  - unfold build_order_message_data.
    rewrite Hu; cbn [bind].
    rewrite (getitem_obj _ _ _ Hl); cbn [bind].
    rewrite Hi; cbn [bind]. rewrite Hm; cbn [bind].
    rewrite get_obj; cbn [bind].
    rewrite (of_value_unknown _ Hn). reflexivity.
Qed.

Definition ex_order_bad_tif : json :=
  JObj [("legs", JList [ex_leg "BTC_USDT_Perp" "0.01" "65038.01" true]);
        ("time_in_force", JStr "GOOD_TILL_CANCEL");
        ("sub_account_id", JStr "1");
        ("signature", JObj [("nonce", JInt 1); ("expiration", JStr "2")])].

Definition ex_bad_tif_kvs : list (string * json) :=
  match ex_order_bad_tif with JObj kvs => kvs | _ => [] end.

Lemma C5_time_in_force_bridging_witness :
  (forall t, exists st, lookup_tif t TIME_IN_FORCE_TO_SIGN_TIME_IN_FORCE = Ok st) /\
  (forall s z, tif_sign_value (JStr s) = Ok z <->
     In (s, z) [("GOOD_TILL_TIME", 1); ("ALL_OR_NONE", 2); ("IMMEDIATE_OR_CANCEL", 3);
                ("FILL_OR_KILL", 4)]) /\
  (forall od' dir' m kvs', build_order_message_data od' dir' = Ok m ->
     unwrap_order od' = Ok (JObj kvs') ->
     In (dflt kvs' "time_in_force" (JStr "GOOD_TILL_TIME")) TIF_NAMES) /\
  build_order_message_data ex_order_bad_tif ex_instruments =
    Err (BadTimeInForce (dflt ex_bad_tif_kvs "time_in_force" (JStr "GOOD_TILL_TIME"))).
Proof.
  apply (C5_time_in_force_bridging ex_order_bad_tif ex_instruments ex_bad_tif_kvs
           (JList [ex_leg "BTC_USDT_Perp" "0.01" "65038.01" true])
           [ex_leg "BTC_USDT_Perp" "0.01" "65038.01" true]
           [JObj [("assetID", JStr "0x030501"); ("contractSize", JInt 10000000);
                  ("limitPrice", JInt 65038010000000); ("isBuyingContract", JBool true)]]);
    [reflexivity | reflexivity | reflexivity | vm_compute; reflexivity |].
  vm_compute. intros [H|[H|[H|[H|[]]]]]; discriminate H.
Defined.

(** *** C6: unknown instruments *)

Lemma process_leg_unknown dir leg name :
  getitem leg "instrument" = Ok (JStr name) ->
  lookup_instrument name dir = None ->
  process_leg dir leg = Err (InstrumentNotFound (JStr name)).
Proof.
  intros Hg Hn; unfold process_leg; rewrite Hg; cbn [bind].
  unfold find_instrument; rewrite Hn; reflexivity.
Qed.

(** C6: when a leg names an instrument absent from the directory,
    sign_order returns no signed order at all (whatever the hashing and
    signing primitives); when the legs before it are well formed, the
    error is the ValueError "Instrument ... not found", raised before any
    hashing or signing. *)
Theorem C6_unknown_instrument_no_signature hash_struct (account : Type) from_key address sign
  od dir pk env kvs pre bad post name :
  unwrap_order od = Ok (JObj kvs) ->
  assoc "legs" kvs = Some (JList (app pre (bad :: post))) ->
  getitem bad "instrument" = Ok (JStr name) ->
  lookup_instrument name dir = None ->
  (forall out, sign_order hash_struct account from_key address sign od dir pk env <> Ok out) /\
  (Forall (fun l => exists y, process_leg dir l = Ok y) pre ->
   sign_order hash_struct account from_key address sign od dir pk env =
     Err (InstrumentNotFound (JStr name))).
Proof.
  intros Hu Hl Hg Hn.
  pose proof (process_leg_unknown dir bad name Hg Hn) as Hbad.
  split.
  - intros out H. unfold sign_order in H.
    apply bind_ok in H; destruct H as (msg & Hb & _).
    apply build_ok_inv in Hb.
    destruct Hb as (kvs' & legs_in & items & legs & ? & ? & ? & ? & ? & ? & ? & ? & ? &
                    Hu' & Hl' & Hi & Hm & _).
    rewrite Hu in Hu'; injection Hu' as <-.
    rewrite Hl in Hl'; injection Hl' as <-.
    cbn in Hi; injection Hi as <-.
    destruct (mapM_ok_in _ _ _ Hm bad) as [y Hy]; [apply in_or_app; right; left; reflexivity|].
    rewrite Hbad in Hy; discriminate.
  - intros Hpre. unfold sign_order.
    unfold build_order_message_data.
    rewrite Hu; cbn [bind].
    rewrite (getitem_obj _ _ _ Hl); cbn [bind iter_json].
    rewrite (mapM_app_err _ pre bad post _ Hpre Hbad).
    reflexivity.
Qed.

(** Stand-ins for the eth_account primitives, for concrete runs. *)
Definition stub_hash_struct (primary_type : string) (types data : json) : result Z := Ok 0.
Definition stub_from_key (key : string) : result unit := Ok tt.
Definition stub_address (a : unit) : string := "0x00000000000000000000000000000000000000aa".
Definition stub_sign (a : unit) (d : Z * Z) : Z * Z * Z := (1, 2, 27).

Definition ex_order_unknown : json :=
  ex_order [ex_leg "BTC_USDT_Perp" "0.01" "65038.01" true; ex_leg "DOGE_USDT_Perp" "10" "0.1" false].

Definition ex_order_unknown_kvs : list (string * json) :=
  match unwrap_order ex_order_unknown with Ok (JObj kvs) => kvs | _ => [] end.

Lemma C6_unknown_instrument_no_signature_witness :
  (forall out, sign_order stub_hash_struct unit stub_from_key stub_address stub_sign
                 ex_order_unknown ex_instruments "0x01" TESTNET <> Ok out) /\
  (Forall (fun l => exists y, process_leg ex_instruments l = Ok y)
     [ex_leg "BTC_USDT_Perp" "0.01" "65038.01" true] ->
   sign_order stub_hash_struct unit stub_from_key stub_address stub_sign
     ex_order_unknown ex_instruments "0x01" TESTNET =
     Err (InstrumentNotFound (JStr "DOGE_USDT_Perp"))).
Proof.
  apply (C6_unknown_instrument_no_signature stub_hash_struct unit stub_from_key stub_address stub_sign
           ex_order_unknown ex_instruments "0x01" TESTNET ex_order_unknown_kvs
           [ex_leg "BTC_USDT_Perp" "0.01" "65038.01" true]
           (ex_leg "DOGE_USDT_Perp" "10" "0.1" false) [] "DOGE_USDT_Perp");
    vm_compute; reflexivity.
Defined.

(** *** C7: width checks *)

Definition ex_order_big : json :=
  JObj [("order", JObj (dict_set "builder_fee" (JStr "1000000")
     (match unwrap_order (ex_order [ex_leg "BTC_USDT_Perp" "100000000000" "65038.01" true]) with
      | Ok (JObj kvs) => kvs | _ => [] end)))].

(** C7 (as stated, refuted): an order with builder_fee "1000000" and a leg
    of size 100000000000 on a 9-decimal instrument is built without error;
    its builderFee is 10^10, above the uint32 range, and its contractSize
    10^20, above the uint64 range. *)
Lemma C7_out_of_range_values_returned :
  res_lookup_path (build_order_message_data ex_order_big ex_instruments) ["builderFee"] =
    Some (JInt 10000000000) /\
  leg_field (build_order_message_data ex_order_big ex_instruments) 0 "contractSize" =
    Some (JInt 100000000000000000000) /\
  2 ^ 32 - 1 < 10000000000 /\ 2 ^ 64 - 1 < 100000000000000000000.
Proof. split; [vm_compute; reflexivity|]. split; [vm_compute; reflexivity|]. lia. Qed.

Lemma process_leg_ok_inv dir leg l :
  process_leg dir leg = Ok l ->
  exists inst size price sz pr,
    getitem leg "size" = Ok size /\
    PyDecimal.scale size (10 ^ Z.of_N (base_decimals inst)) = Ok sz /\
    lookup l "contractSize" = Some (JInt sz) /\
    getitem leg "limit_price" = Ok price /\
    PyDecimal.scale price PRICE_MULTIPLIER = Ok pr /\
    lookup l "limitPrice" = Some (JInt pr).
Proof.
  unfold process_leg; intros H; inv_bind H. injection H as <-.
  do 5 eexists; repeat split; eauto.
Qed.

(** ** Value checks of eth_account's EIP-712 encoder (library model)

    [encode_typed_data] hashes a struct by ABI-encoding each declared field
    of its type ([encode_data]): an array field element by element, a
    struct field by hashing it in turn, and an atomic field through
    eth_abi's encoder, whose integer encoders raise ValueOutOfBounds for
    a value outside the declared width and whose address encoder rejects
    a string that is not an address.  [fits leaf] walks a value along its
    declared type and applies [leaf] to the atomic fields. *)

Fixpoint dec_value (s : string) (acc : Z) : option Z :=
  match s with
  | EmptyString => Some acc
  | String c r =>
      let n := Z.of_nat (nat_of_ascii c) in
      if (48 <=? n) && (n <=? 57) then dec_value r (acc * 10 + (n - 48)) else None
  end.

(** N of "uintN". *)
Definition uint_bits (t : string) : option Z :=
  match t with
  | String "u" (String "i" (String "n" (String "t" (String c r)))) => dec_value (String c r) 0
  | _ => None
  end.

(** N of "intN". *)
Definition sint_bits (t : string) : option Z :=
  match t with
  | String "i" (String "n" (String "t" (String c r))) => dec_value (String c r) 0
  | _ => None
  end.

(** T of "T[]". *)
Fixpoint array_base (t : string) : option string :=
  match t with
  | String "[" (String "]" EmptyString) => Some EmptyString
  | String c r => option_map (String c) (array_base r)
  | EmptyString => None
  end.

Fixpoint fits (leaf : string -> json -> bool) (fuel : nat) (types : json) (ty : string) (v : json)
  : bool :=
  match fuel with
  | O => true
  | S f =>
      match array_base ty with
      | Some b => match v with
                  | JList l => forallb (fits leaf f types b) l
                  | _ => true
                  end
      | None =>
          match lookup types ty, v with
          | Some (JList fs), JObj kvs =>
              forallb (fun fd => match assoc (field_name fd) kvs with
                                 | Some x => fits leaf f types (field_type fd) x
                                 | None => true
                                 end) fs
          | _, _ => leaf ty v
          end
      end
  end.

(** The integer width check of eth_abi. *)
Definition int_leaf (ty : string) (v : json) : bool :=
  match uint_bits ty, sint_bits ty, v with
  | Some n, _, JInt z => (0 <=? z) && (z <? 2 ^ n)
  | None, Some n, JInt z => (- 2 ^ (n - 1) <=? z) && (z <? 2 ^ (n - 1))
  | _, _, _ => true
  end.

Definition is_hex_char (c : ascii) : bool :=
  let n := nat_of_ascii c in
  ((48 <=? n) && (n <=? 57) || (97 <=? n) && (n <=? 102) || (65 <=? n) && (n <=? 70))%nat.

Fixpoint all_hex (s : string) : bool :=
  match s with
  | EmptyString => true
  | String c r => is_hex_char c && all_hex r
  end.

(** A "0x"-prefixed 20-byte hex address. *)
Definition address_leaf (ty : string) (v : json) : bool :=
  if String.eqb ty "address" then
    match v with
    | JStr (String "0" (String "x" r)) => (String.length r =? 40)%nat && all_hex r
    | _ => false
    end
  else true.

Definition values_fit (types : json) (ty : string) (v : json) : bool :=
  fits int_leaf 8 types ty v.

(** The typed data passed to [encode_typed_data(full_message=...)]. *)
Definition full_message_fits (t : json) : bool :=
  match lookup t "types", lookup t "primaryType", lookup t "message" with
  | Some types, Some (JStr pt), Some msg => values_fit types pt msg
  | _, _, _ => true
  end.

(** Stand-ins for the eth_account primitives that perform the checks
    above and the private-key format check of [Account.from_key]. *)
Definition checked_hash_struct (primary_type : string) (types data : json) : result Z :=
  if fits int_leaf 8 types primary_type data && fits address_leaf 8 types primary_type data
  then Ok 0 else Err SigningError.

Definition checked_from_key (key : string) : result unit :=
  if (String.length key =? 64)%nat && all_hex key then Ok tt else Err SigningError.

Definition checked_encode_full_message (t : json) : result (Z * Z) :=
  if full_message_fits t then Ok (0, 0) else Err SigningError.

Lemma fits_struct_field leaf f types ty kvs fs fd x :
  array_base ty = None -> lookup types ty = Some (JList fs) -> In fd fs ->
  assoc (field_name fd) kvs = Some x ->
  fits leaf (S f) types ty (JObj kvs) = true -> fits leaf f types (field_type fd) x = true.
Proof.
  intros Ha Hl Hin Hx H; cbn [fits] in H; rewrite Ha, Hl in H.
  rewrite forallb_forall in H; specialize (H fd Hin); rewrite Hx in H; exact H.
Qed.

Lemma fits_array_elem leaf f types ty b l x :
  array_base ty = Some b -> In x l ->
  fits leaf (S f) types ty (JList l) = true -> fits leaf f types b x = true.
Proof.
  intros Ha Hin H; cbn [fits] in H; rewrite Ha in H.
  rewrite forallb_forall in H; exact (H x Hin).
Qed.

Lemma uint_leaf_bound f types ty n z :
  array_base ty = None -> uint_bits ty = Some n ->
  fits int_leaf (S f) types ty (JInt z) = true -> 0 <= z < 2 ^ n.
Proof.
  intros Ha Hn H; cbn [fits] in H; rewrite Ha in H.
  destruct (lookup types ty) as [[| | | | | ]|] in H;
  unfold int_leaf in H; rewrite Hn in H; apply andb_prop in H as [H1 H2];
  apply Z.leb_le in H1; apply Z.ltb_lt in H2; lia.
Qed.

Lemma order_message_fits_bounds m :
  values_fit EIP712_ORDER_MESSAGE_TYPE "OrderWithBuilderFee" m = true ->
  (forall f, lookup m "builderFee" = Some (JInt f) -> 0 <= f < 2 ^ 32) /\
  (forall legs l k z, lookup m "legs" = Some (JList legs) -> In l legs ->
     In k ["contractSize"; "limitPrice"] -> lookup l k = Some (JInt z) -> 0 <= z < 2 ^ 64).
Proof.
  unfold values_fit; intros H.
  destruct m as [| | | | | mkvs]; split; try discriminate; cbn [lookup].
  - intros f Hf.
    pose proof (fits_struct_field int_leaf 7 EIP712_ORDER_MESSAGE_TYPE "OrderWithBuilderFee" _ _ (field "builderFee" "uint32") _
                  eq_refl eq_refl ltac:(cbn; tauto) Hf H) as H1.
    exact (uint_leaf_bound 6 _ "uint32" 32 f eq_refl eq_refl H1).
  - intros legs l k z Hl Hin Hk Hz.
    pose proof (fits_struct_field int_leaf 7 EIP712_ORDER_MESSAGE_TYPE "OrderWithBuilderFee" _ _ (field "legs" "OrderLeg[]") _
                  eq_refl eq_refl ltac:(cbn; tauto) Hl H) as H1.
    pose proof (fits_array_elem int_leaf 6 EIP712_ORDER_MESSAGE_TYPE "OrderLeg[]" "OrderLeg" _ _ eq_refl Hin H1) as H2.
    destruct l as [| | | | | lkvs]; try discriminate Hz; cbn [lookup] in Hz.
    destruct Hk as [<-|[<-|[]]].
    + pose proof (fits_struct_field int_leaf 5 EIP712_ORDER_MESSAGE_TYPE "OrderLeg" _ _ (field "contractSize" "uint64") _
                    eq_refl eq_refl ltac:(cbn; tauto) Hz H2) as H3.
      exact (uint_leaf_bound 4 _ "uint64" 64 z eq_refl eq_refl H3).
    + pose proof (fits_struct_field int_leaf 5 EIP712_ORDER_MESSAGE_TYPE "OrderLeg" _ _ (field "limitPrice" "uint64") _
                    eq_refl eq_refl ltac:(cbn; tauto) Hz H2) as H3.
      exact (uint_leaf_bound 4 _ "uint64" 64 z eq_refl eq_refl H3).
Qed.

Lemma get_primary_type_order :
  get_primary_type EIP712_ORDER_MESSAGE_TYPE = Ok "OrderWithBuilderFee".
Proof. vm_compute; reflexivity. Qed.

Lemma sign_order_needs_fit hash_struct (account : Type) from_key address sign
  od dir pk env m out :
  (forall pt types data h, hash_struct pt types data = Ok h -> values_fit types pt data = true) ->
  build_order_message_data od dir = Ok m ->
  sign_order hash_struct account from_key address sign od dir pk env = Ok out ->
  values_fit EIP712_ORDER_MESSAGE_TYPE "OrderWithBuilderFee" m = true.
Proof.
  intros Hfit Hb H; unfold sign_order in H; rewrite Hb in H; cbn [bind] in H.
  unfold encode_typed_data in H.
  destruct (hash_struct "EIP712Domain" _ _); cbn [bind] in H; [|discriminate H].
  rewrite get_primary_type_order in H; cbn [bind] in H.
  destruct (hash_struct "OrderWithBuilderFee" EIP712_ORDER_MESSAGE_TYPE m) eqn:E;
    [exact (Hfit _ _ _ _ E) | discriminate H].
Qed.

Lemma checked_hash_struct_fits pt types data h :
  checked_hash_struct pt types data = Ok h -> values_fit types pt data = true.
Proof.
  unfold checked_hash_struct, values_fit.
  destruct (fits int_leaf 8 types pt data); [reflexivity | discriminate].
Qed.

Lemma checked_encode_full_message_fits t x :
  checked_encode_full_message t = Ok x -> full_message_fits t = true.
Proof. unfold checked_encode_full_message; destruct (full_message_fits t); [reflexivity | discriminate]. Qed.


(** *** C8: leg order *)

Definition ex_leg_a : json := ex_leg "BTC_USDT_Perp" "1" "65038.01" true.
Definition ex_leg_b : json := ex_leg "BTC_USDT_Perp" "1.0" "65038.01" true.

(** C8 (as stated, refuted): two orders that differ only in the order of
    two distinct legs ("1" and "1.0" contracts of the same instrument,
    price and side) give the same message, so the same digest and the
    same signature. *)
Lemma C8_reordered_legs_same_message :
  ex_order [ex_leg_a; ex_leg_b] <> ex_order [ex_leg_b; ex_leg_a] /\
  build_order_message_data (ex_order [ex_leg_a; ex_leg_b]) ex_instruments =
    build_order_message_data (ex_order [ex_leg_b; ex_leg_a]) ex_instruments /\
  (exists m, build_order_message_data (ex_order [ex_leg_a; ex_leg_b]) ex_instruments = Ok m).
Proof.
  split; [|split; [vm_compute; reflexivity | eexists; vm_compute; reflexivity]].
  unfold ex_order, ex_leg_a, ex_leg_b, ex_leg; intros H.
  injection H; intros; discriminate.
Qed.

Lemma assoc_dict_set_same k v kvs : assoc k (dict_set k v kvs) = Some v.
Proof.
  induction kvs as [|[k' v'] kvs IH]; cbn; [rewrite String.eqb_refl; reflexivity|].
  destruct (String.eqb_spec k k') as [->|Hne]; cbn.
  - rewrite String.eqb_refl; reflexivity.
  - apply String.eqb_neq in Hne. rewrite Hne. exact IH.
Qed.

Lemma assoc_dict_set_other k k' v kvs :
  k <> k' -> assoc k' (dict_set k v kvs) = assoc k' kvs.
Proof.
  intros Hne; induction kvs as [|[k0 v0] kvs IH]; cbn.
  - destruct (String.eqb_spec k' k); [congruence | reflexivity].
  - destruct (String.eqb_spec k k0) as [->|]; cbn.
    + destruct (String.eqb_spec k' k0); [congruence | reflexivity].
    + destruct (String.eqb k' k0); [reflexivity | exact IH].
Qed.

Lemma dflt_dict_set_other k k' v kvs d :
  k <> k' -> dflt (dict_set k v kvs) k' d = dflt kvs k' d.
Proof. intros H; unfold dflt; rewrite assoc_dict_set_other by exact H; reflexivity. Qed.

Lemma mapM_Forall2 {A B} (f : A -> result B) :
  forall l ys, mapM f l = Ok ys -> Forall2 (fun x y => f x = Ok y) l ys.
Proof.
  induction l as [|x l IH]; intros ys H; cbn in H.
  - injection H as <-; constructor.
  - inv_bind H. injection H as <-. constructor; auto.
Qed.

Ltac unify_results :=
  repeat match goal with
  | H1 : ?e = Ok ?x, H2 : ?e = Ok ?y |- _ =>
      tryif constr_eq x y then clear H2 else (rewrite H1 in H2; injection H2 as H2; subst)
  | H1 : ?e = Some ?x, H2 : ?e = Some ?y |- _ =>
      tryif constr_eq x y then clear H2 else (rewrite H1 in H2; injection H2 as H2; subst)
  end.

(** The order [od] with its order dict (the one under "order" if present,
    else [od] itself) replaced by [kvs]. *)
Definition with_order_fields (od : json) (kvs : list (string * json)) : json :=
  match od with
  | JObj okvs => match assoc "order" okvs with
                 | Some _ => JObj (dict_set "order" (JObj kvs) okvs)
                 | None => JObj kvs
                 end
  | _ => od
  end.

Lemma unwrap_with_order_fields od kvs k v :
  unwrap_order od = Ok (JObj kvs) -> k <> "order" ->
  unwrap_order (with_order_fields od (dict_set k v kvs)) = Ok (JObj (dict_set k v kvs)).
Proof.
  intros Hu Hk. destruct od as [| | | | | okvs]; try discriminate Hu.
  cbn [unwrap_order] in Hu. cbn [with_order_fields].
  destruct (assoc "order" okvs) as [o|] eqn:Ho.
  - cbn [unwrap_order]. rewrite assoc_dict_set_same. reflexivity.
  - injection Hu as ->. cbn [unwrap_order].
    rewrite assoc_dict_set_other by congruence. rewrite Ho. reflexivity.
Qed.

(** C8 (amended): build_order_message_data keeps the caller's leg order:
    the message's legs are the encodings of the input legs, one for one and
    in input order.  For an order (wrapped or bare) given once with legs
    [L1] and once with legs [L2], everything else equal, the messages list
    the encodings [E1] of [L1] and [E2] of [L2], in order, and they are equal
    exactly when [E1 = E2].  In particular a reordering of the legs changes
    the typed message iff the reordered list of encodings differs. *)
Theorem C8_leg_order_preserved od kvs L1 L2 dir m1 m2 :
  unwrap_order od = Ok (JObj kvs) ->
  build_order_message_data (with_order_fields od (dict_set "legs" (JList L1) kvs)) dir = Ok m1 ->
  build_order_message_data (with_order_fields od (dict_set "legs" (JList L2) kvs)) dir = Ok m2 ->
  (forall od' dir' m, build_order_message_data od' dir' = Ok m ->
     exists kvs' items legs,
       unwrap_order od' = Ok (JObj kvs') /\
       (exists legs_in, assoc "legs" kvs' = Some legs_in /\ iter_json legs_in = Ok items) /\
       Forall2 (fun x y => process_leg dir' x = Ok y) items legs /\
       lookup m "legs" = Some (JList legs)) /\
  exists E1 E2,
    Forall2 (fun x y => process_leg dir x = Ok y) L1 E1 /\
    Forall2 (fun x y => process_leg dir x = Ok y) L2 E2 /\
    lookup m1 "legs" = Some (JList E1) /\
    lookup m2 "legs" = Some (JList E2) /\
    (m1 = m2 <-> E1 = E2).
Proof.
  intros Hu H1 H2.
  split.
  { intros od' dir' m Hm.
    apply build_ok_inv in Hm.
    destruct Hm as (kvs' & legs_in & items & legs & ? & ? & ? & ? & ? & ? & ? & ? & ? &
                    Hu' & Hl & Hi & Hmap & _ & _ & _ & _ & _ & _ & _ & _ & _ & ->).
    exists kvs', items, legs; split; [exact Hu'|].
    split; [eauto|]. split; [exact (mapM_Forall2 _ _ _ Hmap) | reflexivity]. }
  apply build_ok_inv in H1, H2.
  destruct H1 as (kvs1 & li1 & it1 & lg1 & t1 & st1 & f1 & sb1 & si1 & g1 & g1' & n1 & e1 &
                  Hu1 & Hl1 & Hi1 & Hm1 & Ht1 & Hst1 & Hf1 & Hsb1 & Hsi1 & Hg1 & Hn1 & Hg1' & He1 & ->).
  destruct H2 as (kvs2 & li2 & it2 & lg2 & t2 & st2 & f2 & sb2 & si2 & g2 & g2' & n2 & e2 &
                  Hu2 & Hl2 & Hi2 & Hm2 & Ht2 & Hst2 & Hf2 & Hsb2 & Hsi2 & Hg2 & Hn2 & Hg2' & He2 & ->).
  rewrite (unwrap_with_order_fields _ _ _ _ Hu) in Hu1 by discriminate.
  rewrite (unwrap_with_order_fields _ _ _ _ Hu) in Hu2 by discriminate.
  injection Hu1 as <-. injection Hu2 as <-.
  rewrite assoc_dict_set_same in Hl1, Hl2.
  injection Hl1 as <-. injection Hl2 as <-.
  cbn in Hi1, Hi2. injection Hi1 as <-. injection Hi2 as <-.
  rewrite !dflt_dict_set_other in * by discriminate.
  rewrite !assoc_dict_set_other in * by discriminate.
  unify_results.
  exists lg1, lg2.
  split; [exact (mapM_Forall2 _ _ _ Hm1)|].
  split; [exact (mapM_Forall2 _ _ _ Hm2)|].
  split; [reflexivity|]. split; [reflexivity|].
  split.
  - intros H; injection H; intros; congruence.
  - intros ->; reflexivity.
Qed.

Definition ex_leg_c : json := ex_leg "ETH_USDT_Perp" "2" "2500" false.

Definition ex_msg_w (L : list json) : json :=
  match build_order_message_data (with_order_fields ex_order_1 (dict_set "legs" (JList L) ex_order_1_kvs))
          ex_instruments with
  | Ok m => m
  | Err _ => JNull
  end.

Lemma C8_leg_order_preserved_witness :
  (forall od' dir' m, build_order_message_data od' dir' = Ok m ->
     exists kvs' items legs,
       unwrap_order od' = Ok (JObj kvs') /\
       (exists legs_in, assoc "legs" kvs' = Some legs_in /\ iter_json legs_in = Ok items) /\
       Forall2 (fun x y => process_leg dir' x = Ok y) items legs /\
       lookup m "legs" = Some (JList legs)) /\
  exists E1 E2,
    Forall2 (fun x y => process_leg ex_instruments x = Ok y) [ex_leg_a; ex_leg_c; ex_leg_b] E1 /\
    Forall2 (fun x y => process_leg ex_instruments x = Ok y) [ex_leg_b; ex_leg_a; ex_leg_c] E2 /\
    lookup (ex_msg_w [ex_leg_a; ex_leg_c; ex_leg_b]) "legs" = Some (JList E1) /\
    lookup (ex_msg_w [ex_leg_b; ex_leg_a; ex_leg_c]) "legs" = Some (JList E2) /\
    (ex_msg_w [ex_leg_a; ex_leg_c; ex_leg_b] = ex_msg_w [ex_leg_b; ex_leg_a; ex_leg_c] <-> E1 = E2).
Proof.
  apply (C8_leg_order_preserved ex_order_1 ex_order_1_kvs
           [ex_leg_a; ex_leg_c; ex_leg_b] [ex_leg_b; ex_leg_a; ex_leg_c] ex_instruments);
    vm_compute; reflexivity.
Defined.

(** *** C9: the signature sub-record *)

Lemma sign_order_ok_shape hash_struct (account : Type) from_key address sign od dir pk env out :
  sign_order hash_struct account from_key address sign od dir pk env = Ok out ->
  exists kvs r s v x n a,
    unwrap_order od = Ok (JObj kvs) /\
    out = JObj [("order", JObj (dict_set "signature"
             (JObj [("r", r); ("s", s); ("v", v); ("expiration", x); ("nonce", n); ("signer", a)])
             kvs))].
Proof.
  unfold sign_order; intros H.
  apply bind_ok in H; destruct H as (msg & _ & H).
  apply bind_ok in H; destruct H as (dm & _ & H).
  apply bind_ok in H; destruct H as (acct & _ & H).
  destruct (sign acct dm) as [[r s] v].
  apply bind_ok in H; destruct H as (rh & _ & H).
  apply bind_ok in H; destruct H as (sh & _ & H).
  apply bind_ok in H; destruct H as (o & Hu & H).
  apply bind_ok in H; destruct H as (okvs & Hc & H).
  apply bind_ok in H; destruct H as (sg1 & _ & H).
  apply bind_ok in H; destruct H as (expiration & _ & H).
  apply bind_ok in H; destruct H as (sg2 & _ & H).
  apply bind_ok in H; destruct H as (nonce & _ & H).
  injection H as <-.
  destruct o as [| | | | | kvs]; try discriminate Hc. injection Hc as <-.
  do 7 eexists; split; [exact Hu | reflexivity].
Qed.

Definition ex_builder_address : string := "0x1234567890abcdef1234567890abcdef12345678".
Definition ex_private_key : string :=
  "0x4c0883a69102937d6231471b5dbb6204fe5129617082792ae468d01a3f362318".

(** ex_order_1 with a well-formed builder address. *)
Definition ex_valid_order_kvs : list (string * json) :=
  dict_set "builder" (JStr ex_builder_address) ex_order_1_kvs.

Definition ex_valid_order : json := JObj [("order", JObj ex_valid_order_kvs)].

Definition ex_order_sig_extra : json :=
  JObj [("order", JObj (dict_set "signature"
     (JObj [("signer", JStr ""); ("r", JStr ""); ("s", JStr ""); ("v", JInt 0);
            ("expiration", JStr "1730800479321350000"); ("nonce", JInt 828700936);
            ("chain_id", JStr "326")])
     ex_valid_order_kvs))].

(** C9 (as stated, refuted): sign_order does not replace only signer, r,
    s, v in the signature sub-record: it rebuilds the record, so a further
    key of the input record (here chain_id) is gone from the signed order,
    whatever eth_account primitives are used.  With primitives that check
    the encoded values, the address and the key format, the order (with a
    well-formed builder address) and the private key are accepted and the
    call succeeds. *)
Lemma C9_extra_signature_key_dropped :
  lookup_path ex_order_sig_extra ["order"; "signature"; "chain_id"] = Some (JStr "326") /\
  (forall hash_struct (account : Type) from_key address sign out,
     sign_order hash_struct account from_key address sign
       ex_order_sig_extra ex_instruments ex_private_key TESTNET = Ok out ->
     lookup_path out ["order"; "signature"; "chain_id"] = None) /\
  (exists out, sign_order checked_hash_struct unit checked_from_key stub_address stub_sign
                 ex_order_sig_extra ex_instruments ex_private_key TESTNET = Ok out).
Proof.
  split; [reflexivity|]. split.
  - intros hash_struct account from_key address sign out H.
    destruct (sign_order_ok_shape _ _ _ _ _ _ _ _ _ _ H) as (kvs & r & s & v & x & n & a & _ & ->).
    cbn [lookup_path lookup assoc String.eqb Ascii.eqb Bool.eqb].
    rewrite assoc_dict_set_same. reflexivity.
  - eexists; vm_compute; reflexivity.
Qed.

Lemma keys_dict_set_present k v kvs x :
  assoc k kvs = Some x -> map fst (dict_set k v kvs) = map fst kvs.
Proof.
  induction kvs as [|[k' v'] kvs IH]; cbn; [discriminate|].
  destruct (String.eqb_spec k k') as [->|]; cbn; intros H; [reflexivity|].
  f_equal; auto.
Qed.

(** C9 (amended): a successful sign_order returns [{"order": order'}] where
    [order'] is the input order (unwrapped) with its signature value
    replaced, at the same position, by the new record
    [{r, s, v, expiration, nonce, signer}]: r, s, v and signer come from
    signing the message built from this very order, expiration and nonce
    are the input's own (the same values the signed message carries), any
    other key of the input signature record is dropped, and every other
    order field is unchanged. *)
Theorem C9_signature_record_rebuilt hash_struct (account : Type) from_key address sign
  od dir pk env out :
  sign_order hash_struct account from_key address sign od dir pk env = Ok out ->
  exists kvs sg msg acct dm r s v rh sh nonce expiration,
    build_order_message_data od dir = Ok msg /\
    encode_typed_data hash_struct (get_eip712_domain_data env) EIP712_ORDER_MESSAGE_TYPE msg = Ok dm /\
    from_key (strip_0x pk) = Ok acct /\
    sign acct dm = (r, s, v) /\
    hex32 r = Ok rh /\ hex32 s = Ok sh /\
    unwrap_order od = Ok (JObj kvs) /\
    assoc "signature" kvs = Some sg /\
    getitem sg "nonce" = Ok nonce /\ getitem sg "expiration" = Ok expiration /\
    lookup msg "nonce" = Some nonce /\ lookup msg "expiration" = Some expiration /\
    out = JObj [("order", JObj (dict_set "signature"
                   (JObj [("r", JStr rh); ("s", JStr sh); ("v", JInt v);
                          ("expiration", expiration); ("nonce", nonce);
                          ("signer", JStr (address acct))]) kvs))] /\
    keys (JObj (dict_set "signature"
                   (JObj [("r", JStr rh); ("s", JStr sh); ("v", JInt v);
                          ("expiration", expiration); ("nonce", nonce);
                          ("signer", JStr (address acct))]) kvs)) = map fst kvs /\
    (forall k, k <> "signature" -> lookup_path out ["order"; k] = assoc k kvs).
Proof.
  unfold sign_order; intros H.
  apply bind_ok in H; destruct H as (msg & Hb & H).
  apply bind_ok in H; destruct H as (dm & He & H).
  apply bind_ok in H; destruct H as (acct & Hk & H).
  destruct (sign acct dm) as [[r s] v] eqn:Hs.
  apply bind_ok in H; destruct H as (rh & Hr & H).
  apply bind_ok in H; destruct H as (sh & Hsh & H).
  apply bind_ok in H; destruct H as (o & Hu & H).
  apply bind_ok in H; destruct H as (okvs & Hc & H).
  apply bind_ok in H; destruct H as (sg1 & Hg1 & H).
  apply bind_ok in H; destruct H as (expiration & Hx & H).
  apply bind_ok in H; destruct H as (sg2 & Hg2 & H).
  apply bind_ok in H; destruct H as (nonce & Hn & H).
  injection H as <-.
  pose proof Hb as Hinv; apply build_ok_inv in Hinv.
  destruct Hinv as (kvs & ? & ? & ? & ? & ? & ? & ? & ? & sa & sb & n' & x' &
                    Hu' & _ & _ & _ & _ & _ & _ & _ & _ & Hsa & Hn' & Hsb & Hx' & ->).
  rewrite Hu in Hu'; injection Hu' as ->.
  cbn in Hc; injection Hc as <-.
  cbn in Hg1, Hg2.
  destruct (assoc "signature" kvs) as [sg|] eqn:Hsig; [|discriminate].
  injection Hg1 as <-. injection Hg2 as <-.
  injection Hsa as <-. injection Hsb as <-.
  unify_results.
  eexists kvs, sg, _, acct, dm, r, s, v, rh, sh, n', x'.
  do 12 (split; [first [reflexivity | eassumption] |]).
  split; [reflexivity|].
  split; [exact (keys_dict_set_present _ _ _ _ Hsig)|].
  intros k Hk0. cbn.
  rewrite assoc_dict_set_other by congruence.
  destruct (assoc k kvs); reflexivity.
Qed.

Lemma C9_signature_record_rebuilt_witness :
  exists out, sign_order checked_hash_struct unit checked_from_key stub_address stub_sign
                ex_valid_order ex_instruments ex_private_key TESTNET = Ok out /\
  exists kvs sg msg acct dm r s v rh sh nonce expiration,
    build_order_message_data ex_valid_order ex_instruments = Ok msg /\
    encode_typed_data checked_hash_struct (get_eip712_domain_data TESTNET) EIP712_ORDER_MESSAGE_TYPE msg = Ok dm /\
    checked_from_key (strip_0x ex_private_key) = Ok acct /\
    stub_sign acct dm = (r, s, v) /\
    hex32 r = Ok rh /\ hex32 s = Ok sh /\
    unwrap_order ex_valid_order = Ok (JObj kvs) /\
    assoc "signature" kvs = Some sg /\
    getitem sg "nonce" = Ok nonce /\ getitem sg "expiration" = Ok expiration /\
    lookup msg "nonce" = Some nonce /\ lookup msg "expiration" = Some expiration /\
    out = JObj [("order", JObj (dict_set "signature"
                   (JObj [("r", JStr rh); ("s", JStr sh); ("v", JInt v);
                          ("expiration", expiration); ("nonce", nonce);
                          ("signer", JStr (stub_address acct))]) kvs))] /\
    keys (JObj (dict_set "signature"
                   (JObj [("r", JStr rh); ("s", JStr sh); ("v", JInt v);
                          ("expiration", expiration); ("nonce", nonce);
                          ("signer", JStr (stub_address acct))]) kvs)) = map fst kvs /\
    (forall k, k <> "signature" -> lookup_path out ["order"; k] = assoc k kvs).
Proof.
  eexists; split; [vm_compute; reflexivity|].
  apply (C9_signature_record_rebuilt checked_hash_struct unit checked_from_key stub_address stub_sign
           ex_valid_order ex_instruments ex_private_key TESTNET).
  vm_compute; reflexivity.
Defined.

(** *** C10: defaults of the optional order fields *)

Definition optional_fields : list string :=
  ["time_in_force"; "is_market"; "post_only"; "reduce_only"; "builder"; "builder_fee"].

Definition build_required_ok (dir : list (string * instrument)) (kvs : list (string * json)) : Prop :=
  exists legs_in items legs sub sub_int sg nonce expiration,
    assoc "legs" kvs = Some legs_in /\ iter_json legs_in = Ok items /\
    mapM (process_leg dir) items = Ok legs /\
    assoc "sub_account_id" kvs = Some sub /\ py_int sub = Ok sub_int /\
    assoc "signature" kvs = Some sg /\
    getitem sg "nonce" = Ok nonce /\ getitem sg "expiration" = Ok expiration.

Lemma build_ok_iff od dir kvs :
  unwrap_order od = Ok (JObj kvs) ->
  (exists m, build_order_message_data od dir = Ok m) <->
  (build_required_ok dir kvs /\
   (exists tif stif, TimeInForce.of_value (dflt kvs "time_in_force" (JStr "GOOD_TILL_TIME")) = Ok tif /\
                     lookup_tif tif TIME_IN_FORCE_TO_SIGN_TIME_IN_FORCE = Ok stif) /\
   (exists fee, PyDecimal.scale (dflt kvs "builder_fee" (JStr "0.001")) 10000 = Ok fee)).
Proof.
  intros Hu. split.
  - intros [m Hb]. apply build_ok_inv in Hb.
    destruct Hb as (kvs' & li & it & lg & tif & stif & fee & sub & si & g1 & g2 & n & x &
                    Hu' & Hl & Hi & Hm & Ht & Hst & Hf & Hsb & Hsi & Hg1 & Hn & Hg2 & Hx & _).
    rewrite Hu in Hu'; injection Hu' as <-.
    split; [|split; eauto].
    exists li, it, lg, sub, si, g1, n, x.
    rewrite Hg2 in Hg1; injection Hg1 as <-. repeat split; assumption.
  - intros ((li & it & lg & sub & si & sg & n & x & Hl & Hi & Hm & Hsb & Hsi & Hsg & Hn & Hx) &
            (tif & stif & Ht & Hst) & (fee & Hf)).
    unfold build_order_message_data. rewrite Hu; cbn [bind].
    rewrite (getitem_obj _ _ _ Hl); cbn [bind]. rewrite Hi; cbn [bind].
    rewrite Hm; cbn [bind]. rewrite get_obj; cbn [bind]. rewrite Ht; cbn [bind].
    rewrite Hst; cbn [bind]. rewrite get_obj; cbn [bind]. rewrite Hf; cbn [bind].
    rewrite (getitem_obj _ _ _ Hsb); cbn [bind]. rewrite Hsi; cbn [bind].
    rewrite !get_obj; cbn [bind].
    rewrite (getitem_obj _ _ _ Hsg); cbn [bind]. rewrite Hn; cbn [bind]. rewrite Hx; cbn [bind].
    eexists; reflexivity.
Qed.

(** C10: build_order_message_data does not fail on absent optional fields
    but substitutes defaults.  For an order without any of the optional
    fields it succeeds exactly when the required fields (legs,
    sub_account_id, signature.nonce, signature.expiration) are processed
    without error; in general it succeeds exactly when, in addition, the
    time_in_force and builder_fee values (given or default) convert.  In
    the built message, no time_in_force gives timeInForce 1
    (GOOD_TILL_TIME), no is_market, post_only or reduce_only gives false,
    no builder gives "", and no builder_fee gives builderFee 10 (from
    "0.001"). *)
Theorem C10_optional_field_defaults od dir kvs :
  unwrap_order od = Ok (JObj kvs) ->
  ((forall k, In k optional_fields -> assoc k kvs = None) ->
     ((exists m, build_order_message_data od dir = Ok m) <-> build_required_ok dir kvs)) /\
  ((exists m, build_order_message_data od dir = Ok m) <->
   (build_required_ok dir kvs /\
    (exists tif stif, TimeInForce.of_value (dflt kvs "time_in_force" (JStr "GOOD_TILL_TIME")) = Ok tif /\
                      lookup_tif tif TIME_IN_FORCE_TO_SIGN_TIME_IN_FORCE = Ok stif) /\
    (exists fee, PyDecimal.scale (dflt kvs "builder_fee" (JStr "0.001")) 10000 = Ok fee))) /\
  (forall m, build_order_message_data od dir = Ok m ->
    (assoc "time_in_force" kvs = None -> lookup m "timeInForce" = Some (JInt 1)) /\
    (assoc "is_market" kvs = None -> lookup m "isMarket" = Some (JBool false)) /\
    (assoc "post_only" kvs = None -> lookup m "postOnly" = Some (JBool false)) /\
    (assoc "reduce_only" kvs = None -> lookup m "reduceOnly" = Some (JBool false)) /\
    (assoc "builder" kvs = None -> lookup m "builder" = Some (JStr "")) /\
    (assoc "builder_fee" kvs = None -> lookup m "builderFee" = Some (JInt 10))).
Proof.
  intros Hu. split; [|split].
  - intros Habs. rewrite (build_ok_iff _ _ _ Hu).
    assert (Ht : assoc "time_in_force" kvs = None) by (apply Habs; cbn; tauto).
    assert (Hf : assoc "builder_fee" kvs = None) by (apply Habs; cbn; tauto).
    unfold dflt; rewrite Ht, Hf.
    split; [intros [H _]; exact H|].
    intros H; split; [exact H|].
    split; eexists; [eexists|]; vm_compute; [split; reflexivity | reflexivity].
  - exact (build_ok_iff _ _ _ Hu).
  - intros m Hb.
    apply build_ok_inv in Hb.
    destruct Hb as (kvs' & ? & ? & ? & tif & stif & fee_int & ? & ? & ? & ? & ? & ? &
                    Hu' & _ & _ & _ & Ht & Hst & Hf & _ & _ & _ & _ & _ & _ & ->).
    rewrite Hu in Hu'; injection Hu' as <-.
    unfold dflt in *.
    repeat split; intros Ha; rewrite Ha in *; cbn; try reflexivity.
    + cbn in Ht; injection Ht as <-; cbn in Hst; injection Hst as <-; reflexivity.
    + vm_compute in Hf; injection Hf as <-; reflexivity.
Qed.

Definition ex_order_minimal : json :=
  JObj [("sub_account_id", JStr "8289849667772468");
        ("legs", JList [ex_leg "BTC_USDT_Perp" "0.01" "65038.01" true]);
        ("signature", JObj [("expiration", JStr "1730800479321350000"); ("nonce", JInt 828700936)])].

Definition ex_minimal_kvs : list (string * json) :=
  match ex_order_minimal with JObj kvs => kvs | _ => [] end.

Lemma C10_optional_field_defaults_witness :
  ((forall k, In k optional_fields -> assoc k ex_minimal_kvs = None) ->
     ((exists m, build_order_message_data ex_order_minimal ex_instruments = Ok m) <->
      build_required_ok ex_instruments ex_minimal_kvs)) /\
  ((exists m, build_order_message_data ex_order_minimal ex_instruments = Ok m) <->
   (build_required_ok ex_instruments ex_minimal_kvs /\
    (exists tif stif, TimeInForce.of_value (dflt ex_minimal_kvs "time_in_force" (JStr "GOOD_TILL_TIME")) = Ok tif /\
                      lookup_tif tif TIME_IN_FORCE_TO_SIGN_TIME_IN_FORCE = Ok stif) /\
    (exists fee, PyDecimal.scale (dflt ex_minimal_kvs "builder_fee" (JStr "0.001")) 10000 = Ok fee))) /\
  (forall m, build_order_message_data ex_order_minimal ex_instruments = Ok m ->
    (assoc "time_in_force" ex_minimal_kvs = None -> lookup m "timeInForce" = Some (JInt 1)) /\
    (assoc "is_market" ex_minimal_kvs = None -> lookup m "isMarket" = Some (JBool false)) /\
    (assoc "post_only" ex_minimal_kvs = None -> lookup m "postOnly" = Some (JBool false)) /\
    (assoc "reduce_only" ex_minimal_kvs = None -> lookup m "reduceOnly" = Some (JBool false)) /\
    (assoc "builder" ex_minimal_kvs = None -> lookup m "builder" = Some (JStr "")) /\
    (assoc "builder_fee" ex_minimal_kvs = None -> lookup m "builderFee" = Some (JInt 10))).
Proof.
  apply (C10_optional_field_defaults ex_order_minimal ex_instruments ex_minimal_kvs);
    vm_compute; reflexivity.
Defined.

(** * The remaining functions of the two scripts

    Header values reach the code as [str] decoded from ISO-8859-1 by
    http.client, so a Rocq [string] (one byte per character) is such a
    value character for character.  On these strings Python's
    [str.lower()] also maps the Latin-1 capitals U+00C0..U+00DE (not
    U+00D7), which [lower] leaves alone; no non-ASCII character becomes
    ASCII either way, so the positions at which an ASCII pattern occurs in
    the lower-cased string are the same. *)

(** ** String operations *)

(** [str(n)] for an int: its decimal digits, "-" first when negative. *)
Fixpoint dec_digits (fuel : nat) (n : Z) (acc : string) : string :=
  match fuel with
  | O => acc
  | S f =>
      let acc := String (ascii_of_nat (Z.to_nat (48 + n mod 10))) acc in
      if n <? 10 then acc else dec_digits f (n / 10) acc
  end.

Definition py_str_int (n : Z) : string :=
  let ds := dec_digits (S (Z.to_nat (Z.log2 (Z.abs n)))) (Z.abs n) EmptyString in
  if n <? 0 then String "-" ds else ds.

(** [s.find(sub)]: the first index at which [sub] occurs, [None] for -1. *)
Fixpoint find (s sub : string) : option nat :=
  if String.prefix sub s then Some O
  else match s with
       | EmptyString => None
       | String _ r => option_map S (find r sub)
       end.

(** [s[n:]] and [s[:n]]. *)
Fixpoint str_drop (n : nat) (s : string) : string :=
  match n, s with
  | O, _ => s
  | S _, EmptyString => EmptyString
  | S n', String _ r => str_drop n' r
  end.

Fixpoint str_take (n : nat) (s : string) : string :=
  match n, s with
  | O, _ => EmptyString
  | S _, EmptyString => EmptyString
  | S n', String c r => String c (str_take n' r)
  end.

(** ** _parse_gravity_cookie (identical in both scripts) *)

(** [set_cookie_header] is [resp.headers.get("set-cookie")]: [None] when
    the header is absent. *)
Definition _parse_gravity_cookie (set_cookie_header : option string) : option string :=
  match set_cookie_header with
  | None | Some EmptyString => None
  | Some h =>
      match find (lower h) "gravity=" with
      | None => None
      | Some idx =>
          let frag := str_drop idx h in
          match find frag ";" with
          | None => Some frag
          | Some e => Some (str_take e frag)
          end
      end
  end.

(** ** _ensure_0x of grvt_create_order_api.py (no lower-casing) *)

Definition _ensure_0x (s0 : string) : string :=
  let s := strip s0 in
  if Authorize.starts_with_0x s then s else String.append "0x" s.

(** ** Response handling of login_with_api_key

    The request itself is an effect; what the code does with the answer
    is a function of the status code and of the two response headers it
    reads ([resp.headers.get(...)], [None] when absent). *)

Inductive http_err : Type :=
| RuntimeError (msg : string)
| HTTPError (status : Z).          (* requests.HTTPError of raise_for_status *)

Inductive outcome (A : Type) : Type :=
| Return (a : A)
| Raise (e : http_err).
Arguments Return {A} a.
Arguments Raise {A} e.

(** The checks after the request, common to both scripts. *)
Definition login_headers (set_cookie account_id : option string) : outcome (string * string) :=
  let gravity_cookie := _parse_gravity_cookie set_cookie in
  match gravity_cookie with
  | None | Some EmptyString =>
      Raise (RuntimeError "Could not find gravity cookie in Set-Cookie response header.")
  | Some c =>
      match account_id with
      | None | Some EmptyString =>
          Raise (RuntimeError "Could not find x-grvt-account-id in response headers.")
      | Some a => Return (c, a)
      end
  end.

(** grvt_create_order_api.py: anything but status 200 is a failure. *)
Definition login_with_api_key_response (status : Z) (set_cookie account_id : option string)
  : outcome (string * string) :=
  if negb (status =? 200) then
    Raise (RuntimeError (String.append "Login failed with status " (py_str_int status)))
  else login_headers set_cookie account_id.

(** [resp.raise_for_status()]: HTTPError for a 4xx or 5xx status. *)
Definition raise_for_status (status : Z) : bool :=
  (400 <=? status) && (status <? 600).

(** authorize.py: [resp.raise_for_status()] instead of the 200 test. *)
Definition authorize_login_with_api_key_response (status : Z) (set_cookie account_id : option string)
  : outcome (string * string) :=
  if raise_for_status status then Raise (HTTPError status)
  else login_headers set_cookie account_id.

(** ** Response handling of fetch_instruments_from_api *)

(** Dict keys as Python compares them: [None], ints (a bool is the int 0
    or 1) and strings; a list or dict is unhashable. *)
Inductive pykey : Type := KNone | KInt (z : Z) | KStr (s : string).

Definition key_of (j : json) : option pykey :=
  match j with
  | JNull => Some KNone
  | JBool b => Some (KInt (if b then 1 else 0))
  | JInt z => Some (KInt z)
  | JStr s => Some (KStr s)
  | JList _ | JObj _ => None
  end.

Definition pykey_eqb (a b : pykey) : bool :=
  match a, b with
  | KNone, KNone => true
  | KInt x, KInt y => x =? y
  | KStr x, KStr y => String.eqb x y
  | _, _ => false
  end.

Definition key_eqb (a b : json) : bool :=
  match key_of a, key_of b with
  | Some x, Some y => pykey_eqb x y
  | _, _ => false
  end.

(** A dict whose keys are arbitrary hashable values. *)
Fixpoint kassoc (k : json) (d : list (json * json)) : option json :=
  match d with
  | [] => None
  | (k', v) :: r => if key_eqb k k' then Some v else kassoc k r
  end.

(** [d[k] = v]: an equal key already present keeps its place (and its
    own key object) and takes the new value. *)
Fixpoint kdict_set (k v : json) (d : list (json * json)) : list (json * json) :=
  match d with
  | [] => [(k, v)]
  | (k', v') :: r => if key_eqb k k' then (k', v) :: r else (k', v') :: kdict_set k v r
  end.

(** The loop [for instrument_data in ...]. *)
Fixpoint collect_instruments (items : list json) (instruments : list (json * json))
  : result (list (json * json)) :=
  match items with
  | [] => Ok instruments
  | instrument_data :: r =>
      instrument_name <- getitem instrument_data "instrument" ;;
      h <- getitem instrument_data "instrument_hash" ;;
      bd <- getitem instrument_data "base_decimals" ;;
      match key_of instrument_name with
      | Some _ =>
          collect_instruments r
            (kdict_set instrument_name
               (JObj [("instrument_hash", h); ("base_decimals", bd)]) instruments)
      | None => Err TypeError
      end
  end.

(** From [data = response.json()] on: the instrument dict returned. *)
Definition fetch_instruments_response (data : json) : result (list (json * json)) :=
  result_list <- get data "result" (JList []) ;;
  items <- iter_json result_list ;;
  collect_instruments items [].

(** ** update_order_signature_fields *)

(** [k in d]: key membership for a dict, substring for a str, element
    equality for a list; TypeError for the other values. *)
Definition py_in (k : string) (d : json) : result bool :=
  match d with
  | JObj kvs => Ok (match assoc k kvs with Some _ => true | None => false end)
  | JStr s => Ok (match find s k with Some _ => true | None => false end)
  | JList l => Ok (existsb (fun x => match x with JStr t => String.eqb t k | _ => false end) l)
  | _ => Err TypeError
  end.

(** [d[k] = v]: only a dict supports item assignment by a str key. *)
Definition setitem (d : json) (k : string) (v : json) : result json :=
  match d with
  | JObj kvs => Ok (JObj (dict_set k v kvs))
  | _ => Err TypeError
  end.

(** The dicts [json.load] builds form a tree, so the in-place updates of
    the nested dicts are their rebuilt values.  [expiration_ns] and
    [nonce] are the values the clock and [secrets.randbelow(2**32)]
    produced. *)
Definition update_order_signature_fields (order_data : json) (expiration_ns nonce : Z)
  : result json :=
  has_order <- py_in "order" order_data ;;
  if has_order then
    order <- getitem order_data "order" ;;
    sig <- getitem order "signature" ;;
    sig <- setitem sig "expiration" (JStr (py_str_int expiration_ns)) ;;
    sig <- setitem sig "nonce" (JInt nonce) ;;
    order <- setitem order "signature" sig ;;
    setitem order_data "order" order
  else
    sig <- getitem order_data "signature" ;;
    sig <- setitem sig "expiration" (JStr (py_str_int expiration_ns)) ;;
    sig <- setitem sig "nonce" (JInt nonce) ;;
    setitem order_data "signature" sig.

(** ** _hex32 of authorize.py and reading a hex string back *)

(** [_hex32(n)] is ["0x" + n.to_bytes(32, "big").hex()], the same
    conversion sign_order applies to r and s. *)
Definition _hex32 (n : Z) : result string := hex32 n.

Definition hex_val (c : ascii) : option Z :=
  let n := Z.of_nat (nat_of_ascii c) in
  if (48 <=? n) && (n <=? 57) then Some (n - 48)
  else if (97 <=? n) && (n <=? 102) then Some (n - 87)
  else None.

(** [int(h, 16)] on a string of lower-case hex digits. *)
Fixpoint hex_value_acc (s : string) (acc : Z) : option Z :=
  match s with
  | EmptyString => Some acc
  | String c r => match hex_val c with
                  | Some d => hex_value_acc r (acc * 16 + d)
                  | None => None
                  end
  end.

Definition hex_value (s : string) : option Z := hex_value_acc s 0.

(** ** sign_eip712 and the request of authorize_builder *)

Section Authorizing.

(** [Account.from_key], [.address], [sign_message] and
    [encode_typed_data(full_message=...)], as in section [Signing]. *)
Variable account : Type.
Variable account_from_key : string -> result account.
Variable account_address : account -> string.
Variable account_sign : account -> Z * Z -> Z * Z * Z.
Variable encode_full_message : json -> result (Z * Z).

(** [sign_eip712]: returns [(v, r, s)]. *)
Definition sign_eip712 (user_privkey : string) (typed_data : json) : result (Z * string * string) :=
  let user_privkey := Authorize._ensure_0x user_privkey in
  acct <- account_from_key user_privkey ;;
  msg <- encode_full_message typed_data ;;
  let '(r, s, v) := account_sign acct msg in
  r_hex <- _hex32 r ;;
  s_hex <- _hex32 s ;;
  Ok (v, r_hex, s_hex).

(** [authorize_builder] up to the POST: the JSON body it sends.  [nonce]
    and [expiration_ns] are the values of [secrets.randbelow(2**32)] and
    of the clock expression. *)
Definition authorize_builder_payload (env : Authorize.EnvConfig)
  (main_account_id builder_account_id user_privkey builder_api_key_signer_privkey
   builder_api_key_label permissions max_futures_fee_rate max_spot_fee_rate : string)
  (nonce expiration_ns : Z) : result json :=
  let builder_api_key_signer_privkey := Authorize._ensure_0x builder_api_key_signer_privkey in
  sacct <- account_from_key builder_api_key_signer_privkey ;;
  let signer_addr := account_address sacct in
  typed <- Authorize.authorize_builder_typed env main_account_id builder_account_id signer_addr
             permissions max_futures_fee_rate max_spot_fee_rate nonce expiration_ns ;;
  vrs <- sign_eip712 (Authorize._ensure_0x user_privkey) typed ;;
  let '(v, r, s) := vrs in
  Ok (JObj [("main_account_id", JStr (Authorize._ensure_0x main_account_id));
            ("builder_account_id", JStr (Authorize._ensure_0x builder_account_id));
            ("max_futures_fee_rate", JStr max_futures_fee_rate);
            ("max_spot_fee_rate", JStr max_spot_fee_rate);
            ("signature", JObj [("signer", JStr (Authorize._ensure_0x main_account_id));
                                ("r", JStr r);
                                ("s", JStr s);
                                ("v", JInt v);
                                ("expiration", JStr (py_str_int expiration_ns));
                                ("nonce", JInt nonce);
                                ("chain_id", JStr (py_str_int (Authorize.chain_id env)))]);
            ("builder_api_key_label", JStr builder_api_key_label);
            ("builder_api_key_signer", JStr (Authorize._ensure_0x signer_addr));
            ("builder_api_key_permissions", JStr permissions)]).

End Authorizing.

Lemma lower_app a b : lower (String.append a b) = String.append (lower a) (lower b).
Proof. induction a as [|c a IH]; cbn; [reflexivity | now rewrite IH]. Qed.

Lemma length_lower s : String.length (lower s) = String.length s.
Proof. induction s; cbn; auto. Qed.

Lemma str_drop_lower n s : str_drop n (lower s) = lower (str_drop n s).
Proof. revert s; induction n; destruct s; cbn; auto. Qed.

Lemma str_take_drop n s : s = String.append (str_take n s) (str_drop n s).
Proof. revert s; induction n; destruct s; cbn; f_equal; auto. Qed.

Lemma str_take_length n s : (n <= String.length s)%nat -> String.length (str_take n s) = n.
Proof. revert s; induction n; destruct s; cbn; intros; try lia; f_equal; apply IHn; lia. Qed.

Lemma str_drop_app a b : str_drop (String.length a) (String.append a b) = b.
Proof. induction a; cbn; auto. Qed.

Lemma str_take_app a b : str_take (String.length a) (String.append a b) = a.
Proof. induction a; cbn; f_equal; auto. Qed.

Lemma find_nil p : find EmptyString p = if String.prefix p EmptyString then Some O else None.
Proof. reflexivity. Qed.

Lemma find_cons c s p :
  find (String c s) p = if String.prefix p (String c s) then Some O else option_map S (find s p).
Proof. reflexivity. Qed.

Lemma find_le s p i : find s p = Some i -> (i <= String.length s)%nat.
Proof.
  revert i; induction s as [|c s IH]; intros i H; [rewrite find_nil in H | rewrite find_cons in H].
  - destruct (String.prefix p EmptyString); [injection H as <-; cbn; lia | discriminate].
  - destruct (String.prefix p (String c s)); [injection H as <-; cbn; lia|].
    destruct (find s p) eqn:E; cbn in H; [injection H as <-|discriminate].
    specialize (IH _ eq_refl); cbn; lia.
Qed.

Lemma find_prefix s p i : find s p = Some i -> String.prefix p (str_drop i s) = true.
Proof.
  revert i; induction s as [|c s IH]; intros i H; [rewrite find_nil in H | rewrite find_cons in H].
  - destruct (String.prefix p EmptyString) eqn:Ep; [injection H as <-; exact Ep | discriminate].
  - destruct (String.prefix p (String c s)) eqn:Ep; [injection H as <-; exact Ep|].
    destruct (find s p) eqn:E; cbn in H; [injection H as <-|discriminate].
    cbn; auto.
Qed.

Lemma prefix_nil s : String.prefix EmptyString s = true.
Proof. destruct s; reflexivity. Qed.

Lemma prefix_app_long p x y :
  (String.length p <= String.length x)%nat ->
  String.prefix p (String.append x y) = String.prefix p x.
Proof.
  revert x; induction p as [|a p IH]; intros x Hl; [now rewrite !prefix_nil|].
  destruct x as [|b x]; cbn in *; [lia|].
  destruct (ascii_dec a b); [apply IH; lia | reflexivity].
Qed.

Lemma prefix_take p s n :
  String.prefix p s = true -> (String.length p <= n)%nat -> String.prefix p (str_take n s) = true.
Proof.
  revert s n; induction p as [|a p IH]; intros s n H Hl; [apply prefix_nil|].
  destruct s as [|b s]; [discriminate|]; destruct n as [|n]; cbn in *; [lia|].
  destruct (ascii_dec a b); [apply IH; auto; lia | discriminate].
Qed.

Lemma prefix_get p s i c :
  String.prefix p s = true -> String.get i p = Some c -> String.get i s = Some c.
Proof.
  revert s i; induction p as [|a p IH]; intros s i H Hg; [destruct i; discriminate|].
  destruct s as [|b s]; [discriminate|]; cbn in H.
  destruct (ascii_dec a b) as [->|]; [|discriminate].
  destruct i; cbn in *; auto.
Qed.

Lemma get_drop n s : String.get 0 (str_drop n s) = String.get n s.
Proof. revert s; induction n; destruct s; cbn; auto. Qed.

Lemma get_lower i s : String.get i (lower s) = option_map lower_char (String.get i s).
Proof. revert s; induction i; destruct s; cbn; auto. Qed.

Lemma prefix_single a c r :
  String.prefix (String a EmptyString) (String c r) = if ascii_dec a c then true else false.
Proof. cbn. destruct (ascii_dec a c); [apply prefix_nil | reflexivity]. Qed.

Lemma find_take_single s a e :
  find s (String a EmptyString) = Some e -> find (str_take e s) (String a EmptyString) = None.
Proof.
  revert e; induction s as [|c s IH]; intros e H.
  - discriminate.
  - rewrite find_cons, prefix_single in H.
    destruct (ascii_dec a c).
    + injection H as <-; reflexivity.
    + destruct (find s (String a EmptyString)) eqn:E; cbn in H; [injection H as <-|discriminate].
      cbn [str_take]. rewrite find_cons, prefix_single.
      destruct (ascii_dec a c); [contradiction|]. now rewrite (IH _ eq_refl).
Qed.

Lemma find_app_single a b ch :
  find a (String ch EmptyString) = None ->
  find (String.append a b) (String ch EmptyString) =
  option_map (fun e => (String.length a + e)%nat) (find b (String ch EmptyString)).
Proof.
  induction a as [|c a IH]; intros H.
  - cbn [String.append String.length]. destruct (find b _); reflexivity.
  - cbn [String.append String.length]. rewrite find_cons, prefix_single in *.
    destruct (ascii_dec ch c); [discriminate|].
    destruct (find a (String ch EmptyString)); [discriminate|].
    rewrite IH by reflexivity. destruct (find b _); reflexivity.
Qed.

(** "gravity=" has no border: it cannot start strictly inside a prefix
    [x] that does not itself start with it. *)
Lemma gravity_shift x w :
  x <> EmptyString -> String.prefix "gravity=" x = false ->
  String.prefix "gravity=" (String.append x (String.append "gravity=" w)) = false.
Proof.
  intros Hne Hx.
  destruct (Nat.le_gt_cases 8 (String.length x)) as [Hl|Hl].
  - rewrite prefix_app_long by (cbn; lia). exact Hx.
  - clear Hx.
    destruct x as [|c1 [|c2 [|c3 [|c4 [|c5 [|c6 [|c7 [|c8 x]]]]]]]];
      cbn in Hl; try lia; try congruence; cbn [String.append String.prefix];
      repeat (destruct (ascii_dec _ _) as [E|E];
              [try discriminate E; subst; cbn [String.prefix] | reflexivity]).
Qed.

Lemma find_gravity_after L w :
  find L "gravity=" = None ->
  find (String.append L (String.append "gravity=" w)) "gravity=" = Some (String.length L).
Proof.
  induction L as [|c L IH]; intros H.
  - assert (Hp : String.prefix "gravity=" (String.append "gravity=" w) = true)
      by (rewrite prefix_app_long by (cbn; lia); reflexivity).
    change (String.append "" (String.append "gravity=" w)) with (String.append "gravity=" w).
    revert Hp; generalize (String.append "gravity=" w); intros t Hp.
    destruct t; [discriminate|]. rewrite find_cons, Hp. reflexivity.
  - cbn [String.append]. rewrite find_cons in *.
    destruct (String.prefix "gravity=" (String c L)) eqn:Ep; [discriminate|].
    destruct (find L "gravity=") eqn:E; [discriminate|].
    pose proof (gravity_shift (String c L) w ltac:(discriminate) Ep) as Hs.
    cbn [String.append] in Hs. rewrite Hs. cbn [String.append] in IH. rewrite IH by reflexivity. reflexivity.
Qed.

Lemma str_take_lower n s : str_take n (lower s) = lower (str_take n s).
Proof. revert s; induction n; destruct s; cbn; f_equal; auto. Qed.

Lemma append_nil_r s : String.append s EmptyString = s.
Proof. induction s; cbn; f_equal; auto. Qed.

Lemma append_assoc_str a b c :
  String.append (String.append a b) c = String.append a (String.append b c).
Proof. induction a; cbn; f_equal; auto. Qed.

Lemma length_append_str a b :
  String.length (String.append a b) = (String.length a + String.length b)%nat.
Proof. induction a; cbn; auto. Qed.

(** _parse_gravity_cookie returns a piece of the header itself: it starts
    at the first case-insensitive occurrence of "gravity=", contains no ';',
    and is followed by the end of the header or by ';'. *)
Theorem parse_gravity_cookie_fragment h c :
  _parse_gravity_cookie (Some h) = Some c ->
  exists pre post,
    h = String.append pre (String.append c post) /\
    find (lower h) "gravity=" = Some (String.length pre) /\
    String.prefix "gravity=" (lower c) = true /\
    find c ";" = None /\
    (post = EmptyString \/ String.prefix ";" post = true).
Proof.
  unfold _parse_gravity_cookie. intros H.
  destruct h as [|ch h']; [discriminate|].
  set (h := String ch h') in *.
  destruct (find (lower h) "gravity=") as [idx|] eqn:Ef; [|discriminate].
  pose proof (find_le _ _ _ Ef) as Hle. rewrite length_lower in Hle.
  pose proof (find_prefix _ _ _ Ef) as HG. rewrite str_drop_lower in HG.
  set (frag := str_drop idx h) in *.
  exists (str_take idx h).
  destruct (find frag ";") as [e|] eqn:Ee; injection H as <-.
  - exists (str_drop e frag).
    assert (He : (8 <= e)%nat).
    { destruct (Nat.le_gt_cases 8 e) as [|Hlt]; [assumption|exfalso].
      pose proof (prefix_get _ _ 0 ";" (find_prefix _ _ _ Ee) eq_refl) as H1.
      rewrite get_drop in H1.
      assert (H2 : String.get e (lower frag) = Some ";"%char) by (rewrite get_lower, H1; reflexivity).
      destruct (String.get e "gravity=") as [g|] eqn:Hg.
      - pose proof (prefix_get _ _ _ _ HG Hg) as H3. rewrite H2 in H3. injection H3 as <-.
        do 8 (destruct e as [|e]; [cbn in Hg; discriminate Hg|]).
        lia.
      - do 8 (destruct e as [|e]; [cbn in Hg; discriminate Hg|]). lia. }
    repeat split.
    + rewrite <- str_take_drop, <- str_take_drop. reflexivity.
    + rewrite str_take_length by lia. reflexivity.
    + rewrite <- str_take_lower. apply prefix_take; [exact HG | cbn; lia].
    + exact (find_take_single _ _ _ Ee).
    + right. exact (find_prefix _ _ _ Ee).
  - exists EmptyString. repeat split.
    + rewrite append_nil_r, <- str_take_drop. reflexivity.
    + rewrite str_take_length by lia. reflexivity.
    + exact HG.
    + exact Ee.
    + left; reflexivity.
Qed.

(** A header holding "gravity=" + v, with no earlier "gravity=" (in any
    case), a value v without ';', and ending or followed by ';', parses
    back to "gravity=" + v. *)
Theorem parse_gravity_cookie_roundtrip pre v rest :
  find (lower pre) "gravity=" = None ->
  find v ";" = None ->
  (rest = EmptyString \/ String.prefix ";" rest = true) ->
  _parse_gravity_cookie (Some (String.append pre (String.append "gravity=" (String.append v rest))))
  = Some (String.append "gravity=" v).
Proof.
  intros Hpre Hv Hrest. unfold _parse_gravity_cookie.
  rewrite !lower_app.
  change (lower "gravity=") with "gravity=".
  rewrite (find_gravity_after _ _ Hpre), length_lower.
  destruct (String.append pre (String.append "gravity=" (String.append v rest))) as [|ch t] eqn:Eh.
  { apply (f_equal String.length) in Eh. rewrite !length_append_str in Eh. cbn in Eh. lia. }
  rewrite <- Eh, str_drop_app.
  rewrite (find_app_single "gravity=" _ ";" eq_refl), (find_app_single v rest ";" Hv).
  destruct Hrest as [->|Hr].
  - cbn [find option_map String.prefix]. rewrite append_nil_r. reflexivity.
  - destruct rest as [|r0 rest]; [discriminate|].
    rewrite find_cons, Hr. cbn [option_map].
    rewrite <- append_assoc_str.
    replace (String.length "gravity=" + (String.length v + 0))%nat
      with (String.length (String.append "gravity=" v)) by (rewrite length_append_str; lia).
    rewrite str_take_app. reflexivity.
Qed.

(** login_with_api_key returns (cookie, account id) exactly when the status
    is accepted (200 in grvt_create_order_api.py; not 4xx or 5xx in
    authorize.py), the gravity cookie is found and non-empty, and the
    x-grvt-account-id header is present and non-empty. *)
Theorem login_success_conditions status set_cookie account_id c a :
  (login_with_api_key_response status set_cookie account_id = Return (c, a) <->
     status = 200%Z /\ authorize_login_with_api_key_response status set_cookie account_id = Return (c, a)) /\
  (authorize_login_with_api_key_response status set_cookie account_id = Return (c, a) <->
     ((status < 400)%Z \/ (600 <= status)%Z) /\
     _parse_gravity_cookie set_cookie = Some c /\ c <> EmptyString /\
     account_id = Some a /\ a <> EmptyString).
Proof.
  unfold login_with_api_key_response, authorize_login_with_api_key_response, raise_for_status,
    login_headers.
  split; split.
  - destruct (Z.eqb_spec status 200) as [->|]; cbn; [split; auto | discriminate].
  - intros [-> H]; exact H.
  - destruct ((400 <=? status)%Z && (status <? 600)%Z) eqn:Hs; [discriminate|].
    destruct (_parse_gravity_cookie set_cookie) as [[|c0 c']|]; try discriminate.
    destruct account_id as [[|a0 a']|]; try discriminate.
    intros H; injection H as <- <-.
    repeat split; try discriminate.
    destruct (Z.leb_spec 400 status); destruct (Z.ltb_spec status 600); cbn in Hs; try discriminate; lia.
  - intros (Hs & Hc & Hc0 & Ha & Ha0).
    replace ((400 <=? status)%Z && (status <? 600)%Z) with false
      by (destruct Hs; [destruct (Z.leb_spec 400 status) | destruct (Z.ltb_spec status 600)];
          rewrite ?andb_false_r; auto; lia).
    rewrite Hc, Ha. destruct c; [congruence|]. destruct a; [congruence|]. reflexivity.
Qed.

Lemma pykey_eqb_spec x y : pykey_eqb x y = true <-> x = y.
Proof.
  destruct x, y; cbn; split; intros H; try discriminate; try reflexivity.
  - apply Z.eqb_eq in H; congruence.
  - injection H as ->; apply Z.eqb_refl.
  - apply String.eqb_eq in H; congruence.
  - injection H as ->; apply String.eqb_refl.
Qed.

Lemma key_eqb_spec a b :
  key_eqb a b = true <-> exists x, key_of a = Some x /\ key_of b = Some x.
Proof.
  unfold key_eqb. destruct (key_of a) as [x|], (key_of b) as [y|].
  - rewrite pykey_eqb_spec. split; [intros ->; eauto | intros (z & Hx & Hy); congruence].
  - split; [discriminate | intros (z & _ & H); discriminate].
  - split; [discriminate | intros (z & H & _); discriminate].
  - split; [discriminate | intros (z & H & _); discriminate].
Qed.

Lemma key_eqb_trans_l q k k' :
  key_eqb k k' = true -> key_eqb q k' = key_eqb q k.
Proof.
  intros H. apply key_eqb_spec in H as (x & Hk & Hk').
  destruct (key_eqb q k) eqn:E1.
  - apply key_eqb_spec in E1 as (y & Hq & Hk2). apply key_eqb_spec. exists x. split; congruence.
  - destruct (key_eqb q k') eqn:E2; [|reflexivity].
    apply key_eqb_spec in E2 as (y & Hq & Hk2).
    rewrite <- E1. symmetry. apply key_eqb_spec. exists x. split; congruence.
Qed.

Lemma kassoc_kdict_set q k v d :
  kassoc q (kdict_set k v d) = if key_eqb q k then Some v else kassoc q d.
Proof.
  induction d as [|[k' v'] d IH]; cbn; [destruct (key_eqb q k); reflexivity|].
  destruct (key_eqb k k') eqn:Ek; cbn.
  - rewrite (key_eqb_trans_l q k k' Ek). destruct (key_eqb q k); reflexivity.
  - rewrite IH.
    destruct (key_eqb q k') eqn:E1, (key_eqb q k) eqn:E2; try reflexivity.
    exfalso. apply key_eqb_spec in E1 as (x & Hq & Hk'), E2 as (y & Hq2 & Hk).
    assert (key_eqb k k' = true) by (apply key_eqb_spec; exists x; split; congruence).
    congruence.
Qed.

Lemma getitem_lookup j k v : getitem j k = Ok v -> lookup j k = Some v.
Proof.
  destruct j; cbn; try discriminate.
  destruct (assoc k kvs); [intros H; injection H as ->; reflexivity | discriminate].
Qed.

Lemma collect_instruments_spec items : forall acc d,
  collect_instruments items acc = Ok d ->
  forall q,
    (kassoc q d = kassoc q acc /\
     forall it n, In it items -> lookup it "instrument" = Some n -> key_eqb q n = false) \/
    (exists pre it post n h bd,
       items = app pre (it :: post) /\
       lookup it "instrument" = Some n /\ key_eqb q n = true /\
       lookup it "instrument_hash" = Some h /\ lookup it "base_decimals" = Some bd /\
       (forall it' n', In it' post -> lookup it' "instrument" = Some n' -> key_eqb q n' = false) /\
       kassoc q d = Some (JObj [("instrument_hash", h); ("base_decimals", bd)])).
Proof.
  induction items as [|it r IH]; intros acc d H q; cbn in H.
  - injection H as <-. left. split; [reflexivity | intros it n []].
  - apply bind_ok in H as (n & Hn & H).
    apply bind_ok in H as (h & Hh & H).
    apply bind_ok in H as (bd & Hb & H).
    destruct (key_of n) eqn:Hkn; [|discriminate].
    apply getitem_lookup in Hn, Hh, Hb.
    destruct (IH _ _ H q) as [[Hd Hnone] | (pre & it' & post & n' & h' & bd' & -> & H1 & H2 & H3 & H4 & H5 & H6)].
    + rewrite kassoc_kdict_set in Hd.
      destruct (key_eqb q n) eqn:Eq.
      * right. exists [], it, r, n, h, bd. repeat split; auto.
      * left. split; [exact Hd|].
        intros it0 n0 [<-|Hin] Hl; [congruence | eauto].
    + right. exists (it :: pre), it', post, n', h', bd'. repeat split; auto.
Qed.

(** In the instrument dict fetch_instruments_from_api builds, a name maps
    to the hash and base_decimals of the LAST result entry with that name,
    and a name no entry carries is absent. *)
Theorem fetch_instruments_last_entry_wins kvs items d :
  assoc "result" kvs = Some (JList items) ->
  fetch_instruments_response (JObj kvs) = Ok d ->
  forall s,
    (kassoc (JStr s) d = None /\
     forall it, In it items -> lookup it "instrument" <> Some (JStr s)) \/
    (exists pre it post h bd,
       items = app pre (it :: post) /\
       lookup it "instrument" = Some (JStr s) /\
       lookup it "instrument_hash" = Some h /\ lookup it "base_decimals" = Some bd /\
       (forall it', In it' post -> lookup it' "instrument" <> Some (JStr s)) /\
       kassoc (JStr s) d = Some (JObj [("instrument_hash", h); ("base_decimals", bd)])).
Proof.
  intros Hr H s. unfold fetch_instruments_response in H. cbn [get] in H. rewrite Hr in H.
  cbn [bind iter_json] in H.
  assert (Hstr : forall n, key_eqb (JStr s) n = true <-> n = JStr s).
  { intros n. rewrite key_eqb_spec. split.
    - intros (x & Hx & Hn). cbn in Hx. injection Hx as <-.
      destruct n; cbn in Hn; try discriminate; injection Hn as ->; reflexivity.
    - intros ->. exists (KStr s); auto. }
  assert (Hneg : forall n, key_eqb (JStr s) n = false -> n <> JStr s).
  { intros n Hf Hn. apply Hstr in Hn. congruence. }
  destruct (collect_instruments_spec _ _ _ H (JStr s))
    as [[Hd Hnone] | (pre & it & post & n & h & bd & -> & H1 & H2 & H3 & H4 & H5 & H6)].
  - left. split; [exact Hd|]. intros it Hin Hl. apply (Hneg (JStr s)); [eauto | reflexivity].
  - right. apply Hstr in H2; subst n.
    exists pre, it, post, h, bd. repeat split; auto.
    intros it' Hin Hl. apply (Hneg (JStr s)); [eauto | reflexivity].
Qed.

Lemma collect_instruments_complete items : forall acc d,
  collect_instruments items acc = Ok d ->
  forall it, In it items ->
    exists n h bd, lookup it "instrument" = Some n /\ lookup it "instrument_hash" = Some h /\
                   lookup it "base_decimals" = Some bd /\ key_of n <> None.
Proof.
  induction items as [|it r IH]; intros acc d H it0 Hin; [destruct Hin|]. cbn in H.
  apply bind_ok in H as (n & Hn & H).
  apply bind_ok in H as (h & Hh & H).
  apply bind_ok in H as (bd & Hb & H).
  destruct (key_of n) eqn:Hkn; [|discriminate].
  destruct Hin as [<-|Hin]; [|eauto].
  exists n, h, bd. apply getitem_lookup in Hn, Hh, Hb. repeat split; auto. congruence.
Qed.

(** fetch_instruments_from_api returns only when every result entry has
    instrument, instrument_hash and base_decimals with a hashable name; a
    response without "result" gives the empty dict. *)
Theorem fetch_instruments_no_partial_result kvs d :
  fetch_instruments_response (JObj kvs) = Ok d ->
  (assoc "result" kvs = None -> d = []) /\
  (forall items, assoc "result" kvs = Some (JList items) ->
     forall it, In it items ->
       exists n h bd, lookup it "instrument" = Some n /\ lookup it "instrument_hash" = Some h /\
                      lookup it "base_decimals" = Some bd /\ key_of n <> None).
Proof.
  unfold fetch_instruments_response; cbn [get]. intros H. split.
  - intros Hr. rewrite Hr in H. cbn in H. injection H as <-. reflexivity.
  - intros items Hr. rewrite Hr in H. cbn [bind iter_json] in H.
    exact (collect_instruments_complete _ _ _ H).
Qed.

Lemma hex_val_digit d : (0 <= d < 16)%Z -> hex_val (hex_digit d) = Some d.
Proof.
  intros Hd.
  assert (d = 0 \/ d = 1 \/ d = 2 \/ d = 3 \/ d = 4 \/ d = 5 \/ d = 6 \/ d = 7 \/ d = 8 \/
          d = 9 \/ d = 10 \/ d = 11 \/ d = 12 \/ d = 13 \/ d = 14 \/ d = 15)%Z as Hc by lia.
  repeat destruct Hc as [->|Hc]; subst; reflexivity.
Qed.

Lemma hex_digits_value k : forall n acc a,
  hex_value_acc (hex_digits k n acc) a =
  hex_value_acc acc (a * 16 ^ Z.of_nat k + n mod 16 ^ Z.of_nat k).
Proof.
  induction k as [|k IH]; intros n acc a; cbn [hex_digits].
  - cbn. f_equal. rewrite Z.mod_1_r. lia.
  - rewrite IH. cbn [hex_value_acc].
    rewrite hex_val_digit by (apply Z.mod_pos_bound; lia).
    f_equal.
    rewrite Nat2Z.inj_succ, Z.pow_succ_r by lia.
    rewrite Z.rem_mul_r by (try apply Z.pow_pos_nonneg; lia).
    ring.
Qed.

Lemma hex_digits_length k : forall n acc,
  String.length (hex_digits k n acc) = (k + String.length acc)%nat.
Proof. induction k as [|k IH]; intros n acc; cbn [hex_digits]; [reflexivity|]. rewrite IH. cbn. lia. Qed.

Lemma hex32_ok_inv n s :
  hex32 n = Ok s ->
  (0 <= n < 2 ^ 256)%Z /\
  exists h, s = String.append "0x" h /\ String.length h = 64%nat /\ hex_value h = Some n.
Proof.
  unfold hex32. destruct ((n <? 0)%Z || (2 ^ 256 <=? n)%Z) eqn:E; [discriminate|].
  apply orb_false_iff in E as [E1 E2]. apply Z.ltb_ge in E1. apply Z.leb_gt in E2.
  intros H; injection H as <-. split; [lia|].
  exists (hex_digits 64 n EmptyString). split; [reflexivity|]. split.
  - rewrite hex_digits_length. reflexivity.
  - unfold hex_value. rewrite hex_digits_value. cbn [hex_value_acc]. f_equal.
    rewrite Z.mod_small; [lia|]. change (16 ^ Z.of_nat 64)%Z with (2 ^ 256)%Z. lia.
Qed.

(** _hex32 n is "0x" and 64 hex digits whose value is n, for
    0 <= n < 2^256; outside that range it raises OverflowError. *)
Theorem hex32_fixed_width_roundtrip n :
  match _hex32 n with
  | Ok s => (0 <= n < 2 ^ 256)%Z /\
            exists h, s = String.append "0x" h /\ String.length h = 64%nat /\ hex_value h = Some n
  | Err e => e = IntOverflowError /\ (n < 0 \/ 2 ^ 256 <= n)%Z
  end.
Proof.
  unfold _hex32. destruct (hex32 n) as [s|e] eqn:H.
  - exact (hex32_ok_inv _ _ H).
  - unfold hex32 in H. destruct ((n <? 0)%Z || (2 ^ 256 <=? n)%Z) eqn:E; [|discriminate].
    injection H as <-. split; [reflexivity|].
    apply orb_true_iff in E as [E|E]; [apply Z.ltb_lt in E | apply Z.leb_le in E]; lia.
Qed.

Definition first_nonspace (s : string) : bool :=
  match s with
  | EmptyString => true
  | String c _ => negb (is_space c)
  end.

Lemma rev_str_acc s acc : rev_str s acc = String.append (rev_str s EmptyString) acc.
Proof.
  revert acc; induction s as [|c s IH]; intros acc; cbn; [reflexivity|].
  rewrite IH, (IH (String c EmptyString)), append_assoc_str. reflexivity.
Qed.

Lemma rev_str_app a b :
  rev_str (String.append a b) EmptyString =
  String.append (rev_str b EmptyString) (rev_str a EmptyString).
Proof.
  induction a as [|c a IH]; cbn [String.append rev_str].
  - rewrite append_nil_r. reflexivity.
  - rewrite (rev_str_acc (String.append a b) (String c EmptyString)), IH,
      (rev_str_acc a (String c EmptyString)), append_assoc_str. reflexivity.
Qed.

Lemma rev_str_involutive s : rev_str (rev_str s EmptyString) EmptyString = s.
Proof.
  induction s as [|c s IH]; cbn [rev_str]; [reflexivity|].
  rewrite (rev_str_acc s (String c EmptyString)), rev_str_app, IH. reflexivity.
Qed.

Lemma rev_str_empty s : rev_str s EmptyString = EmptyString -> s = EmptyString.
Proof.
  intros H. rewrite <- (rev_str_involutive s), H. reflexivity.
Qed.

Lemma lstrip_first s : first_nonspace (lstrip s) = true.
Proof.
  induction s as [|c s IH]; cbn; [reflexivity|].
  destruct (is_space c) eqn:E; [exact IH | cbn; rewrite E; reflexivity].
Qed.

Lemma lstrip_id s : first_nonspace s = true -> lstrip s = s.
Proof. destruct s as [|c s]; cbn; [reflexivity|]. destruct (is_space c); [discriminate | reflexivity]. Qed.

Lemma lstrip_suffix s : exists p, s = String.append p (lstrip s).
Proof.
  induction s as [|c s [p IH]]; cbn; [exists EmptyString; reflexivity|].
  destruct (is_space c); [exists (String c p); cbn; f_equal; exact IH | exists EmptyString; reflexivity].
Qed.

Lemma first_nonspace_app a b :
  a <> EmptyString -> first_nonspace (String.append a b) = first_nonspace a.
Proof. destruct a; [congruence | reflexivity]. Qed.

Lemma lstrip_app_nonspace a b :
  b <> EmptyString -> first_nonspace b = true ->
  lstrip (String.append a b) = String.append (lstrip a) b.
Proof.
  intros Hne Hb. induction a as [|c a IH]; cbn.
  - exact (lstrip_id _ Hb).
  - destruct (is_space c); [exact IH | reflexivity].
Qed.

Definition trimmed (s : string) : bool :=
  first_nonspace s && first_nonspace (rev_str s EmptyString).

Lemma strip_trimmed s : trimmed s = true -> strip s = s.
Proof.
  unfold trimmed, strip. intros H. apply andb_true_iff in H as [H1 H2].
  rewrite (lstrip_id _ H1), (lstrip_id _ H2). apply rev_str_involutive.
Qed.

Lemma strip_is_trimmed s : trimmed (strip s) = true.
Proof.
  unfold trimmed, strip.
  set (y := rev_str (lstrip s) EmptyString).
  rewrite rev_str_involutive, lstrip_first, andb_true_r.
  destruct (lstrip_suffix y) as [p Hp].
  destruct (lstrip y) as [|c z] eqn:Ez; [reflexivity|].
  assert (Hy : rev_str y EmptyString = lstrip s) by apply rev_str_involutive.
  rewrite Hp, rev_str_app in Hy.
  pose proof (lstrip_first s) as Hf. rewrite <- Hy in Hf.
  rewrite first_nonspace_app in Hf; [exact Hf|].
  intros He. apply rev_str_empty in He. discriminate.
Qed.

Lemma ascii_code_lt c : (nat_of_ascii c < 256)%nat.
Proof. apply nat_ascii_bounded. Qed.

Lemma lower_char_code c :
  nat_of_ascii (lower_char c) =
  (if (65 <=? nat_of_ascii c)%nat && (nat_of_ascii c <=? 90)%nat
   then nat_of_ascii c + 32 else nat_of_ascii c)%nat.
Proof.
  unfold lower_char.
  destruct ((65 <=? nat_of_ascii c)%nat && (nat_of_ascii c <=? 90)%nat) eqn:E; [|reflexivity].
  apply andb_true_iff in E as [_ E]. apply Nat.leb_le in E.
  apply nat_ascii_embedding. lia.
Qed.

Lemma is_space_lower_char c : is_space (lower_char c) = is_space c.
Proof.
  unfold is_space. rewrite lower_char_code.
  destruct ((65 <=? nat_of_ascii c)%nat && (nat_of_ascii c <=? 90)%nat) eqn:E; [|reflexivity].
  apply andb_true_iff in E as [E1 E2]. apply Nat.leb_le in E1, E2.
  destruct (Nat.eqb_spec (nat_of_ascii c + 32) 32); [lia|].
  destruct (Nat.eqb_spec (nat_of_ascii c) 32); [lia|].
  destruct (Nat.leb_spec 9 (nat_of_ascii c + 32)), (Nat.leb_spec (nat_of_ascii c + 32) 13),
           (Nat.leb_spec 9 (nat_of_ascii c)), (Nat.leb_spec (nat_of_ascii c) 13); cbn; lia.
Qed.

Lemma lower_char_idem c : lower_char (lower_char c) = lower_char c.
Proof.
  unfold lower_char at 1. rewrite lower_char_code.
  destruct ((65 <=? nat_of_ascii c)%nat && (nat_of_ascii c <=? 90)%nat) eqn:E.
  - apply andb_true_iff in E as [E1 E2]. apply Nat.leb_le in E1, E2.
    destruct (Nat.leb_spec 65 (nat_of_ascii c + 32)), (Nat.leb_spec (nat_of_ascii c + 32) 90);
      cbn; try reflexivity; lia.
  - rewrite E. reflexivity.
Qed.

Lemma lower_idem s : lower (lower s) = lower s.
Proof. induction s; cbn; f_equal; auto using lower_char_idem. Qed.

Lemma first_nonspace_lower s : first_nonspace (lower s) = first_nonspace s.
Proof. destruct s; cbn; [reflexivity|]. now rewrite is_space_lower_char. Qed.

Lemma rev_str_lower s : rev_str (lower s) EmptyString = lower (rev_str s EmptyString).
Proof.
  induction s as [|c s IH]; cbn [lower rev_str]; [reflexivity|].
  rewrite (rev_str_acc (lower s)), IH, (rev_str_acc s (String c EmptyString)), lower_app.
  reflexivity.
Qed.

Lemma trimmed_lower s : trimmed (lower s) = trimmed s.
Proof. unfold trimmed. rewrite rev_str_lower, !first_nonspace_lower. reflexivity. Qed.

Lemma trimmed_0x s : trimmed s = true -> trimmed (String.append "0x" s) = true.
Proof.
  unfold trimmed. intros H. apply andb_true_iff in H as [_ H2].
  rewrite rev_str_app. cbn [first_nonspace String.append andb negb]. change (is_space "0") with false.
  cbn [negb andb].
  destruct (rev_str s EmptyString) eqn:E; [reflexivity|].
  rewrite first_nonspace_app by discriminate. exact H2.
Qed.

Lemma ensure_0x_shape s :
  Authorize.starts_with_0x (_ensure_0x s) = true /\ trimmed (_ensure_0x s) = true.
Proof.
  unfold _ensure_0x. pose proof (strip_is_trimmed s) as Ht.
  destruct (Authorize.starts_with_0x (strip s)) eqn:E; auto.
  split; [reflexivity | exact (trimmed_0x _ Ht)].
Qed.

Lemma starts_with_0x_inv s :
  Authorize.starts_with_0x s = true -> exists r, s = String "0" (String "x" r).
Proof.
  destruct s as [|a [|b r]]; intros H; [discriminate| |].
  - destruct a as [[] [] [] [] [] [] [] []]; discriminate.
  - destruct a as [[] [] [] [] [] [] [] []]; try discriminate;
      destruct b as [[] [] [] [] [] [] [] []]; try discriminate; eauto.
Qed.

Lemma starts_with_0x_lower s :
  Authorize.starts_with_0x s = true -> Authorize.starts_with_0x (lower s) = true.
Proof. intros H. apply starts_with_0x_inv in H as [r ->]. reflexivity. Qed.

Lemma ensure_0x_props s :
  _ensure_0x (_ensure_0x s) = _ensure_0x s /\
  Authorize._ensure_0x (Authorize._ensure_0x s) = Authorize._ensure_0x s /\
  Authorize.starts_with_0x (_ensure_0x s) = true /\
  Authorize.starts_with_0x (Authorize._ensure_0x s) = true /\
  lower (Authorize._ensure_0x s) = Authorize._ensure_0x s.
Proof.
  assert (Hl : forall x, Authorize._ensure_0x x = lower (_ensure_0x x)) by reflexivity.
  destruct (ensure_0x_shape s) as [Hs Ht].
  set (t := _ensure_0x s) in *.
  assert (Hfix : forall u, Authorize.starts_with_0x u = true -> trimmed u = true -> _ensure_0x u = u).
  { intros u Hu Htu. unfold _ensure_0x. rewrite (strip_trimmed _ Htu), Hu. reflexivity. }
  rewrite !Hl. fold t.
  repeat split.
  - exact (Hfix _ Hs Ht).
  - rewrite (Hfix (lower t)), lower_idem; [reflexivity | apply starts_with_0x_lower; exact Hs |].
    rewrite trimmed_lower; exact Ht.
  - exact Hs.
  - apply starts_with_0x_lower; exact Hs.
  - apply lower_idem.
Qed.

(** Both _ensure_0x functions are idempotent and their results start with
    "0x"; the authorize.py one returns a lower-case string. *)
Theorem ensure_0x_idempotent s :
  _ensure_0x (_ensure_0x s) = _ensure_0x s /\
  Authorize._ensure_0x (Authorize._ensure_0x s) = Authorize._ensure_0x s /\
  Authorize.starts_with_0x (_ensure_0x s) = true /\
  Authorize.starts_with_0x (Authorize._ensure_0x s) = true /\
  lower (Authorize._ensure_0x s) = Authorize._ensure_0x s.
Proof. exact (ensure_0x_props s). Qed.

Lemma strip_two a b r :
  is_space a = false -> is_space b = false ->
  strip (String a (String b r)) =
  String a (String b (rev_str (lstrip (rev_str r EmptyString)) EmptyString)).
Proof.
  intros Ha Hb. unfold strip.
  rewrite (lstrip_id (String a (String b r))) by (cbn; rewrite Ha; reflexivity).
  cbn [rev_str]. rewrite (rev_str_acc r (String b (String a EmptyString))).
  change (String b (String a EmptyString)) with (String.append (String b EmptyString) (String a EmptyString)).
  rewrite lstrip_app_nonspace by (try discriminate; cbn; rewrite Hb; reflexivity).
  rewrite rev_str_app. reflexivity.
Qed.

(** authorize.py's _ensure_0x does not recognise an upper-case "0X"
    prefix: it adds "0x" in front of the lowered "0x...". *)
Theorem authorize_ensure_0x_upper_X_prefix h :
  Authorize._ensure_0x (String.append "0X" h) =
  String.append "0x" (Authorize._ensure_0x (String.append "0x" h)).
Proof.
  unfold Authorize._ensure_0x. cbn [String.append].
  rewrite !strip_two by reflexivity.
  reflexivity.
Qed.

(** ** build_order_message_data and update_order_signature_fields *)

Lemma getitem_obj_eq kvs1 kvs2 k :
  assoc k kvs1 = assoc k kvs2 -> getitem (JObj kvs1) k = getitem (JObj kvs2) k.
Proof. intros H; cbn [getitem]; rewrite H; reflexivity. Qed.

Lemma get_obj_eq kvs1 kvs2 k d :
  assoc k kvs1 = assoc k kvs2 -> get (JObj kvs1) k d = get (JObj kvs2) k d.
Proof. intros H; cbn [get]; rewrite H; reflexivity. Qed.

Definition build_fields : list string :=
  ["legs"; "time_in_force"; "builder_fee"; "sub_account_id";
   "is_market"; "post_only"; "reduce_only"; "builder"].

Definition sig_field (order : json) (k : string) : result json :=
  sg <- getitem order "signature" ;; getitem sg k.

Lemma build_congr od1 od2 dir kvs1 kvs2 :
  unwrap_order od1 = Ok (JObj kvs1) ->
  unwrap_order od2 = Ok (JObj kvs2) ->
  (forall k, In k build_fields -> assoc k kvs1 = assoc k kvs2) ->
  sig_field (JObj kvs1) "nonce" = sig_field (JObj kvs2) "nonce" ->
  sig_field (JObj kvs1) "expiration" = sig_field (JObj kvs2) "expiration" ->
  build_order_message_data od1 dir = build_order_message_data od2 dir.
Proof.
  intros H1 H2 Hf Hn Hx.
  unfold build_order_message_data; rewrite H1, H2; cbn [bind].
  rewrite (getitem_obj_eq kvs1 kvs2 "legs"), (getitem_obj_eq kvs1 kvs2 "sub_account_id"),
    (get_obj_eq kvs1 kvs2 "time_in_force"), (get_obj_eq kvs1 kvs2 "builder_fee"),
    (get_obj_eq kvs1 kvs2 "is_market"), (get_obj_eq kvs1 kvs2 "post_only"),
    (get_obj_eq kvs1 kvs2 "reduce_only"), (get_obj_eq kvs1 kvs2 "builder")
    by (apply Hf; cbn; tauto).
  repeat match goal with
  | |- bind ?m _ = bind ?m _ => destruct m; cbn [bind]; [|reflexivity]
  end.
  unfold sig_field in Hn, Hx.
  destruct (getitem (JObj kvs1) "signature") as [s1|e1];
  destruct (getitem (JObj kvs2) "signature") as [s2|e2];
  cbn [bind] in Hn, Hx |- *;
  first [rewrite Hn, Hx; reflexivity | rewrite Hn; reflexivity
        | rewrite <- Hn; reflexivity | exact Hn].
Qed.

Definition signature_updated (kvs : list (string * json)) (skvs : list (string * json))
  (expiration_ns nonce : Z) : list (string * json) :=
  dict_set "signature"
    (JObj (dict_set "nonce" (JInt nonce)
             (dict_set "expiration" (JStr (py_str_int expiration_ns)) skvs))) kvs.

Lemma update_ok_inv od e n od' :
  update_order_signature_fields od e n = Ok od' ->
  exists kvs skvs,
    unwrap_order od = Ok (JObj kvs) /\ assoc "signature" kvs = Some (JObj skvs) /\
    unwrap_order od' = Ok (JObj (signature_updated kvs skvs e n)) /\
    keys od' = keys od /\
    (forall k, k <> "order" -> k <> "signature" -> lookup od' k = lookup od k).
Proof.
  intros H; unfold update_order_signature_fields in H.
  destruct od as [| | | s | l | okvs]; cbn [py_in bind] in H; try discriminate H.
  - destruct (find s "order"); discriminate H.
  - destruct (existsb _ l); discriminate H.
  - destruct (assoc "order" okvs) as [o|] eqn:Ho; cbn [bind getitem] in H.
    + rewrite Ho in H; cbn [bind] in H.
      destruct o as [| | | | | kvs]; try discriminate H; cbn [getitem bind] in H.
      destruct (assoc "signature" kvs) as [[| | | | | skvs]|] eqn:Hs; try discriminate H.
      cbn [setitem bind] in H. injection H as <-.
      exists kvs, skvs; cbn [unwrap_order]; rewrite Ho.
      split; [reflexivity|]. split; [exact Hs|].
      split; [rewrite assoc_dict_set_same; reflexivity|].
      split; [exact (keys_dict_set_present _ _ _ _ Ho)|].
      intros k Hk _; cbn [lookup]; apply assoc_dict_set_other; congruence.
    + destruct (assoc "signature" okvs) as [[| | | | | skvs]|] eqn:Hs; try discriminate H.
      cbn [setitem bind] in H. injection H as <-.
      exists okvs, skvs; cbn [unwrap_order]; rewrite Ho.
      split; [reflexivity|]. split; [exact Hs|].
      unfold signature_updated.
      split; [rewrite assoc_dict_set_other by discriminate; rewrite Ho; reflexivity|].
      split; [exact (keys_dict_set_present _ _ _ _ Hs)|].
      intros k _ Hk; cbn [lookup]; apply assoc_dict_set_other; congruence.
Qed.

Lemma update_ok od e n kvs skvs :
  unwrap_order od = Ok (JObj kvs) -> assoc "signature" kvs = Some (JObj skvs) ->
  exists od', update_order_signature_fields od e n = Ok od'.
Proof.
  intros Hu Hs; unfold update_order_signature_fields.
  destruct od as [| | | | | okvs]; try discriminate Hu; cbn [unwrap_order] in Hu.
  cbn [py_in bind getitem].
  destruct (assoc "order" okvs) as [o|] eqn:Ho.
  - injection Hu as ->; cbn [bind getitem]; rewrite Hs; cbn; eexists; reflexivity.
  - injection Hu as ->; cbn [bind getitem]; rewrite Hs; cbn; eexists; reflexivity.
Qed.

(** If an order builds, refreshing its signature fields succeeds and the
    message built afterwards differs only in nonce and expiration, which
    take the new values. *)
Theorem update_then_build_refreshes_nonce_expiration od dir m e n :
  build_order_message_data od dir = Ok m ->
  exists od' m',
    update_order_signature_fields od e n = Ok od' /\
    build_order_message_data od' dir = Ok m' /\
    keys m' = keys m /\
    lookup m' "nonce" = Some (JInt n) /\
    lookup m' "expiration" = Some (JStr (py_str_int e)) /\
    (forall k, k <> "nonce" -> k <> "expiration" -> lookup m' k = lookup m k).
Proof.
  intros H.
  destruct (build_ok_inv _ _ _ H) as (kvs & legs_in & items & legs & tif & stif & fee_int &
    sub & sub_int & sg1 & sg2 & nonce & expiration &
    Hu & Hl & Hi & Hm & Ht & Hst & Hf & Hsb & Hsi & Hg1 & Hn & Hg2 & He & ->).
  destruct sg1 as [| | | | | skvs]; try discriminate Hn.
  destruct (update_ok od e n kvs skvs Hu Hg1) as [od' Hod'].
  destruct (update_ok_inv _ _ _ _ Hod') as (kvs0 & skvs0 & Hu0 & Hs0 & Hu' & _ & _).
  rewrite Hu in Hu0; injection Hu0 as <-. rewrite Hg1 in Hs0; injection Hs0 as <-.
  exists od'; eexists; split; [exact Hod'|].
  split.
  { unfold build_order_message_data; rewrite Hu'; cbn [bind].
    rewrite !get_obj; unfold signature_updated.
    rewrite !dflt_dict_set_other by discriminate.
    cbn [getitem]. rewrite !assoc_dict_set_same.
    rewrite !assoc_dict_set_other by discriminate.
    rewrite Hl; cbn [bind]; rewrite Hi; cbn [bind]; rewrite Hm; cbn [bind].
    rewrite Ht; cbn [bind]; rewrite Hst; cbn [bind]; rewrite Hf; cbn [bind].
    rewrite Hsb; cbn [bind]; rewrite Hsi; cbn [bind getitem].
    rewrite assoc_dict_set_same, assoc_dict_set_other by discriminate.
    rewrite assoc_dict_set_same; reflexivity. }
  split; [reflexivity|]. split; [reflexivity|]. split; [reflexivity|].
  intros k H1 H2. apply String.eqb_neq in H1, H2.
  cbn [lookup assoc]. rewrite H1, H2.
  repeat (destruct (String.eqb _ _); [reflexivity|]). reflexivity.
Qed.

Section AuthorizingProps.

Variable account : Type.
Variable account_from_key : string -> result account.
Variable account_address : account -> string.
Variable account_sign : account -> Z * Z -> Z * Z * Z.
Variable encode_full_message : json -> result (Z * Z).

Lemma authorize_builder_payload_ok env main builder upk spk label perms mf ms nonce exp p :
  authorize_builder_payload account account_from_key account_address account_sign
    encode_full_message env main builder upk spk label perms mf ms nonce exp = Ok p ->
  exists sacct uacct mf_u ms_u msg r s v r_hex s_hex,
    account_from_key (Authorize._ensure_0x spk) = Ok sacct /\
    Authorize.fee_rate_uint32 mf = Ok mf_u /\
    Authorize.fee_rate_uint32 ms = Ok ms_u /\
    account_from_key (Authorize._ensure_0x upk) = Ok uacct /\
    encode_full_message
      (Authorize.build_eip712_payload (Authorize._ensure_0x main) (Authorize._ensure_0x builder)
         (Authorize._ensure_0x (account_address sacct)) perms mf_u ms_u nonce exp
         (Authorize.chain_id env)) = Ok msg /\
    account_sign uacct msg = (r, s, v) /\
    _hex32 r = Ok r_hex /\ _hex32 s = Ok s_hex /\
    p = JObj [("main_account_id", JStr (Authorize._ensure_0x main));
              ("builder_account_id", JStr (Authorize._ensure_0x builder));
              ("max_futures_fee_rate", JStr mf);
              ("max_spot_fee_rate", JStr ms);
              ("signature", JObj [("signer", JStr (Authorize._ensure_0x main));
                                  ("r", JStr r_hex);
                                  ("s", JStr s_hex);
                                  ("v", JInt v);
                                  ("expiration", JStr (py_str_int exp));
                                  ("nonce", JInt nonce);
                                  ("chain_id", JStr (py_str_int (Authorize.chain_id env)))]);
              ("builder_api_key_label", JStr label);
              ("builder_api_key_signer", JStr (Authorize._ensure_0x (account_address sacct)));
              ("builder_api_key_permissions", JStr perms)].
Proof.
  unfold authorize_builder_payload, sign_eip712, Authorize.authorize_builder_typed.
  intros H.
  destruct (account_from_key (Authorize._ensure_0x spk)) as [sacct|] eqn:E1; [|discriminate H].
  cbn [bind] in H.
  destruct (Authorize.fee_rate_uint32 mf) as [mf_u|] eqn:E2; [|discriminate H]. cbn [bind] in H.
  destruct (Authorize.fee_rate_uint32 ms) as [ms_u|] eqn:E3; [|discriminate H]. cbn [bind] in H.
  destruct (ensure_0x_props upk) as (_ & Hidem & _).
  rewrite Hidem in H.
  destruct (account_from_key (Authorize._ensure_0x upk)) as [uacct|] eqn:E4; [|discriminate H].
  cbn [bind] in H.
  match type of H with context [encode_full_message ?t] =>
    destruct (encode_full_message t) as [msg|] eqn:E5; [|discriminate H] end.
  cbn [bind] in H.
  destruct (account_sign uacct msg) as [[r s] v] eqn:E6.
  destruct (_hex32 r) as [r_hex|] eqn:E7; [|discriminate H]. cbn [bind] in H.
  destruct (_hex32 s) as [s_hex|] eqn:E8; [|discriminate H]. cbn [bind] in H.
  injection H as <-.
  exists sacct, uacct, mf_u, ms_u, msg, r, s, v, r_hex, s_hex.
  do 8 (split; [first [reflexivity | assumption]|]). reflexivity.
Qed.

(** The request body of authorize_builder carries the signature (r, s, v)
    of the typed message under the user's key, and its account ids, signer,
    permissions, nonce, expiration and chain id match the signed message. *)
Theorem authorize_builder_payload_matches_signed_message
  env main builder upk spk label perms mf ms nonce exp p :
  authorize_builder_payload account account_from_key account_address account_sign
    encode_full_message env main builder upk spk label perms mf ms nonce exp = Ok p ->
  exists sacct uacct typed msg r s v r_hex s_hex,
    account_from_key (Authorize._ensure_0x spk) = Ok sacct /\
    Authorize.authorize_builder_typed env main builder (account_address sacct)
      perms mf ms nonce exp = Ok typed /\
    account_from_key (Authorize._ensure_0x upk) = Ok uacct /\
    encode_full_message typed = Ok msg /\
    account_sign uacct msg = (r, s, v) /\
    _hex32 r = Ok r_hex /\ _hex32 s = Ok s_hex /\
    lookup_path p ["signature"; "r"] = Some (JStr r_hex) /\
    lookup_path p ["signature"; "s"] = Some (JStr s_hex) /\
    lookup_path p ["signature"; "v"] = Some (JInt v) /\
    lookup_path p ["main_account_id"] = lookup_path typed ["message"; "accountID"] /\
    lookup_path p ["signature"; "signer"] = lookup_path typed ["message"; "accountID"] /\
    lookup_path p ["builder_account_id"] = lookup_path typed ["message"; "builderAccountID"] /\
    lookup_path p ["builder_api_key_signer"] = lookup_path typed ["message"; "signer"] /\
    lookup_path p ["builder_api_key_permissions"] = lookup_path typed ["message"; "permissions"] /\
    lookup_path p ["signature"; "nonce"] = lookup_path typed ["message"; "nonce"] /\
    lookup_path typed ["message"; "expiration"] = Some (JInt exp) /\
    lookup_path p ["signature"; "expiration"] = Some (JStr (py_str_int exp)) /\
    lookup_path typed ["domain"; "chainId"] = Some (JInt (Authorize.chain_id env)) /\
    lookup_path p ["signature"; "chain_id"] = Some (JStr (py_str_int (Authorize.chain_id env))).
Proof.
  intros H.
  destruct (authorize_builder_payload_ok _ _ _ _ _ _ _ _ _ _ _ _ H) as
    (sacct & uacct & mf_u & ms_u & msg & r & s & v & r_hex & s_hex &
     E1 & E2 & E3 & E4 & E5 & E6 & E7 & E8 & ->).
  eexists sacct, uacct, _, msg, r, s, v, r_hex, s_hex.
  split; [exact E1|].
  split; [unfold Authorize.authorize_builder_typed; rewrite E2, E3; reflexivity|].
  split; [exact E4|]. split; [exact E5|]. split; [exact E6|].
  split; [exact E7|]. split; [exact E8|].
  repeat split.
Qed.

End AuthorizingProps.

Definition ex_account_from_key (k : string) : result string := Ok k.
Definition ex_account_address (a : string) : string := "0xAbC0".
Definition ex_account_sign (a : string) (m : Z * Z) : Z * Z * Z := (fst m, snd m, 27).
Definition ex_encode_full_message (t : json) : result (Z * Z) := Ok (5, 6).
Definition ex_auth_env : Authorize.EnvConfig :=
  {| Authorize.name := "prod"; Authorize.edge_base := "https://edge.grvt.io";
     Authorize.trades_base := "https://trades.grvt.io"; Authorize.chain_id := 325 |}.
Definition ex_auth_payload_result : result json :=
  authorize_builder_payload string ex_account_from_key ex_account_address ex_account_sign
    ex_encode_full_message ex_auth_env " 0xMAIN" "0xbuilder" "0xuser" "signer" "label"
    "trade" "0.001" "0.0001" 7 1700000000000000000.
Definition ex_auth_payload : json :=
  match ex_auth_payload_result with Ok p => p | Err _ => JNull end.

Lemma authorize_builder_payload_matches_signed_message_witness :
  ex_auth_payload_result = Ok ex_auth_payload /\
  exists sacct uacct typed msg r s v r_hex s_hex,
    ex_account_from_key (Authorize._ensure_0x "signer") = Ok sacct /\
    Authorize.authorize_builder_typed ex_auth_env " 0xMAIN" "0xbuilder" (ex_account_address sacct)
      "trade" "0.001" "0.0001" 7 1700000000000000000 = Ok typed /\
    ex_account_from_key (Authorize._ensure_0x "0xuser") = Ok uacct /\
    ex_encode_full_message typed = Ok msg /\
    ex_account_sign uacct msg = (r, s, v) /\
    _hex32 r = Ok r_hex /\ _hex32 s = Ok s_hex /\
    lookup_path ex_auth_payload ["signature"; "r"] = Some (JStr r_hex) /\
    lookup_path ex_auth_payload ["signature"; "s"] = Some (JStr s_hex) /\
    lookup_path ex_auth_payload ["signature"; "v"] = Some (JInt v) /\
    lookup_path ex_auth_payload ["main_account_id"] = lookup_path typed ["message"; "accountID"] /\
    lookup_path ex_auth_payload ["signature"; "signer"] = lookup_path typed ["message"; "accountID"] /\
    lookup_path ex_auth_payload ["builder_account_id"] = lookup_path typed ["message"; "builderAccountID"] /\
    lookup_path ex_auth_payload ["builder_api_key_signer"] = lookup_path typed ["message"; "signer"] /\
    lookup_path ex_auth_payload ["builder_api_key_permissions"] = lookup_path typed ["message"; "permissions"] /\
    lookup_path ex_auth_payload ["signature"; "nonce"] = lookup_path typed ["message"; "nonce"] /\
    lookup_path typed ["message"; "expiration"] = Some (JInt 1700000000000000000) /\
    lookup_path ex_auth_payload ["signature"; "expiration"] = Some (JStr (py_str_int 1700000000000000000)) /\
    lookup_path typed ["domain"; "chainId"] = Some (JInt (Authorize.chain_id ex_auth_env)) /\
    lookup_path ex_auth_payload ["signature"; "chain_id"] =
      Some (JStr (py_str_int (Authorize.chain_id ex_auth_env))).
Proof.
  assert (H : ex_auth_payload_result = Ok ex_auth_payload) by (vm_compute; reflexivity).
  split; [exact H|].
  exact (authorize_builder_payload_matches_signed_message string ex_account_from_key
    ex_account_address ex_account_sign ex_encode_full_message ex_auth_env " 0xMAIN" "0xbuilder"
    "0xuser" "signer" "label" "trade" "0.001" "0.0001" 7 1700000000000000000 ex_auth_payload H).
Defined.

(** build_order_message_data reads only legs, time_in_force, builder_fee,
    sub_account_id, is_market, post_only, reduce_only, builder and the
    signature's nonce and expiration: orders agreeing on these give the same
    result, error included. *)
Theorem build_order_message_reads_listed_fields od1 od2 dir kvs1 kvs2 :
  unwrap_order od1 = Ok (JObj kvs1) ->
  unwrap_order od2 = Ok (JObj kvs2) ->
  (forall k, In k build_fields -> assoc k kvs1 = assoc k kvs2) ->
  sig_field (JObj kvs1) "nonce" = sig_field (JObj kvs2) "nonce" ->
  sig_field (JObj kvs1) "expiration" = sig_field (JObj kvs2) "expiration" ->
  build_order_message_data od1 dir = build_order_message_data od2 dir.
Proof. exact (build_congr od1 od2 dir kvs1 kvs2). Qed.


(** update_order_signature_fields succeeds exactly when the (unwrapped)
    order is a dict whose "signature" is a dict. *)
Theorem update_order_signature_fields_succeeds_iff od e n :
  (exists od', update_order_signature_fields od e n = Ok od') <->
  (exists kvs skvs, unwrap_order od = Ok (JObj kvs) /\ assoc "signature" kvs = Some (JObj skvs)).
Proof.
  split.
  - intros [od' H]. destruct (update_ok_inv _ _ _ _ H) as (kvs & skvs & Hu & Hs & _).
    exists kvs, skvs; split; assumption.
  - intros (kvs & skvs & Hu & Hs). exact (update_ok od e n kvs skvs Hu Hs).
Qed.

(** ** Concrete inputs for the statements with hypotheses *)

Definition ex_cookie_header : string := "rm=true; GRAVITY=abc; Path=/".

Lemma parse_gravity_cookie_fragment_witness :
  _parse_gravity_cookie (Some ex_cookie_header) = Some "GRAVITY=abc" /\
  exists pre post,
    ex_cookie_header = String.append pre (String.append "GRAVITY=abc" post) /\
    find (lower ex_cookie_header) "gravity=" = Some (String.length pre) /\
    String.prefix "gravity=" (lower "GRAVITY=abc") = true /\
    find "GRAVITY=abc" ";" = None /\
    (post = EmptyString \/ String.prefix ";" post = true).
Proof.
  assert (H : _parse_gravity_cookie (Some ex_cookie_header) = Some "GRAVITY=abc")
    by (vm_compute; reflexivity).
  split; [exact H | exact (parse_gravity_cookie_fragment _ _ H)].
Defined.

Lemma parse_gravity_cookie_roundtrip_witness :
  find (lower "rm=true; ") "gravity=" = None /\ find "abc" ";" = None /\
  _parse_gravity_cookie
    (Some (String.append "rm=true; " (String.append "gravity=" (String.append "abc" "; Path=/"))))
  = Some (String.append "gravity=" "abc").
Proof.
  assert (H1 : find (lower "rm=true; ") "gravity=" = None) by (vm_compute; reflexivity).
  assert (H2 : find "abc" ";" = None) by (vm_compute; reflexivity).
  split; [exact H1|]. split; [exact H2|].
  apply (parse_gravity_cookie_roundtrip _ _ _ H1 H2). right; vm_compute; reflexivity.
Defined.

Definition ex_inst (n h : string) (bd : Z) : json :=
  JObj [("instrument", JStr n); ("instrument_hash", JStr h); ("base_decimals", JInt bd)].

Definition ex_fetch_items : list json :=
  [ex_inst "BTC_USDT_Perp" "0x030501" 9; ex_inst "ETH_USDT_Perp" "0x030401" 9;
   ex_inst "BTC_USDT_Perp" "0x030502" 8].

Definition ex_fetch_kvs : list (string * json) := [("result", JList ex_fetch_items)].

Definition ex_fetch_dict : list (json * json) :=
  match fetch_instruments_response (JObj ex_fetch_kvs) with Ok d => d | Err _ => [] end.

Lemma fetch_instruments_last_entry_wins_witness :
  assoc "result" ex_fetch_kvs = Some (JList ex_fetch_items) /\
  fetch_instruments_response (JObj ex_fetch_kvs) = Ok ex_fetch_dict /\
  forall s,
    (kassoc (JStr s) ex_fetch_dict = None /\
     forall it, In it ex_fetch_items -> lookup it "instrument" <> Some (JStr s)) \/
    (exists pre it post h bd,
       ex_fetch_items = app pre (it :: post) /\
       lookup it "instrument" = Some (JStr s) /\
       lookup it "instrument_hash" = Some h /\ lookup it "base_decimals" = Some bd /\
       (forall it', In it' post -> lookup it' "instrument" <> Some (JStr s)) /\
       kassoc (JStr s) ex_fetch_dict = Some (JObj [("instrument_hash", h); ("base_decimals", bd)])).
Proof.
  assert (H1 : assoc "result" ex_fetch_kvs = Some (JList ex_fetch_items)) by reflexivity.
  assert (H2 : fetch_instruments_response (JObj ex_fetch_kvs) = Ok ex_fetch_dict)
    by (vm_compute; reflexivity).
  split; [exact H1|]. split; [exact H2|].
  exact (fetch_instruments_last_entry_wins _ _ _ H1 H2).
Defined.

Lemma fetch_instruments_no_partial_result_witness :
  fetch_instruments_response (JObj ex_fetch_kvs) = Ok ex_fetch_dict /\
  (assoc "result" ex_fetch_kvs = None -> ex_fetch_dict = []) /\
  (forall items, assoc "result" ex_fetch_kvs = Some (JList items) ->
     forall it, In it items ->
       exists n h bd, lookup it "instrument" = Some n /\ lookup it "instrument_hash" = Some h /\
                      lookup it "base_decimals" = Some bd /\ key_of n <> None).
Proof.
  assert (H : fetch_instruments_response (JObj ex_fetch_kvs) = Ok ex_fetch_dict)
    by (vm_compute; reflexivity).
  split; [exact H | exact (fetch_instruments_no_partial_result _ _ H)].
Defined.

Definition ex_sig (r : string) : json :=
  JObj [("signer", JStr "0xabc"); ("r", JStr r); ("s", JStr "0x2"); ("v", JInt 27);
        ("expiration", JStr "1700000000000000000"); ("nonce", JInt 3)].

Definition ex_order_fields : list (string * json) :=
  [("sub_account_id", JStr "8289849667772468");
   ("time_in_force", JStr "GOOD_TILL_TIME");
   ("legs", JList [ex_leg "BTC_USDT_Perp" "0.01" "65038.01" true])].

Definition ex_upd_order : json :=
  JObj [("order", JObj (app ex_order_fields [("signature", ex_sig "0x1")]));
        ("comment", JStr "wrapped")].

Definition ex_upd_order2 : json :=
  JObj (app ex_order_fields [("client_order_id", JStr "42"); ("signature", ex_sig "0x9")]).

Definition ex_upd_dir : list (string * instrument) :=
  [("BTC_USDT_Perp", {| instrument_hash := JStr "0x030501"; base_decimals := 9 |})].

Definition ex_upd_kvs (o : json) : list (string * json) :=
  match unwrap_order o with Ok (JObj kvs) => kvs | _ => [] end.


Definition ex_upd_msg : json :=
  match build_order_message_data ex_upd_order ex_upd_dir with Ok m => m | Err _ => JNull end.

Lemma build_order_message_reads_listed_fields_witness :
  unwrap_order ex_upd_order = Ok (JObj (ex_upd_kvs ex_upd_order)) /\
  unwrap_order ex_upd_order2 = Ok (JObj (ex_upd_kvs ex_upd_order2)) /\
  build_order_message_data ex_upd_order ex_upd_dir = Ok ex_upd_msg /\
  build_order_message_data ex_upd_order ex_upd_dir =
    build_order_message_data ex_upd_order2 ex_upd_dir.
Proof.
  assert (H1 : unwrap_order ex_upd_order = Ok (JObj (ex_upd_kvs ex_upd_order)))
    by (vm_compute; reflexivity).
  assert (H2 : unwrap_order ex_upd_order2 = Ok (JObj (ex_upd_kvs ex_upd_order2)))
    by (vm_compute; reflexivity).
  split; [exact H1|]. split; [exact H2|]. split; [vm_compute; reflexivity|].
  apply (build_order_message_reads_listed_fields _ _ _ _ _ H1 H2).
  - intros k Hk; repeat (destruct Hk as [<-|Hk]; [vm_compute; reflexivity|]); destruct Hk.
  - vm_compute; reflexivity.
  - vm_compute; reflexivity.
Defined.


Lemma update_then_build_refreshes_nonce_expiration_witness :
  build_order_message_data ex_upd_order ex_upd_dir = Ok ex_upd_msg /\
  exists od' m',
    update_order_signature_fields ex_upd_order 1700000005000000000 7 = Ok od' /\
    build_order_message_data od' ex_upd_dir = Ok m' /\
    keys m' = keys ex_upd_msg /\
    lookup m' "nonce" = Some (JInt 7) /\
    lookup m' "expiration" = Some (JStr (py_str_int 1700000005000000000)) /\
    (forall k, k <> "nonce" -> k <> "expiration" -> lookup m' k = lookup ex_upd_msg k).
Proof.
  assert (H : build_order_message_data ex_upd_order ex_upd_dir = Ok ex_upd_msg)
    by (vm_compute; reflexivity).
  split; [exact H | exact (update_then_build_refreshes_nonce_expiration _ _ _ _ _ H)].
Defined.

(** ** C7: where the integer widths are checked *)

Lemma authorize_fee_fits (account : Type) from_key address sign encode
  env main builder upk spk label perms mf ms nonce exp p :
  (forall t x, encode t = Ok x -> full_message_fits t = true) ->
  authorize_builder_payload account from_key address sign encode
    env main builder upk spk label perms mf ms nonce exp = Ok p ->
  (forall k, Authorize.fee_rate_uint32 mf = Ok k -> 0 <= k < 2 ^ 32) /\
  (forall k, Authorize.fee_rate_uint32 ms = Ok k -> 0 <= k < 2 ^ 32).
Proof.
  intros Hfit H.
  destruct (authorize_builder_payload_ok _ _ _ _ _ _ _ _ _ _ _ _ _ _ _ _ _ H) as
    (sacct & uacct & mf_u & ms_u & msg & r & s & v & r_hex & s_hex &
     _ & E2 & E3 & _ & E5 & _).
  apply Hfit in E5. unfold full_message_fits, values_fit, Authorize.build_eip712_payload in E5.
  cbn [lookup assoc] in E5.
  cbn [String.eqb Ascii.eqb Bool.eqb] in E5.
  split; intros k Hk; [rewrite E2 in Hk | rewrite E3 in Hk]; injection Hk as <-.
  - match type of E5 with fits _ _ ?T _ (JObj ?K) = true =>
      pose proof (fits_struct_field int_leaf 7 T "AddAccountSignerWithBuilder" K _
                    (field "maxFutureFeeRate" "uint32") (JInt mf_u)
                    eq_refl eq_refl ltac:(cbn; tauto) eq_refl E5) as H1 end.
    exact (uint_leaf_bound 6 _ "uint32" 32 mf_u eq_refl eq_refl H1).
  - match type of E5 with fits _ _ ?T _ (JObj ?K) = true =>
      pose proof (fits_struct_field int_leaf 7 T "AddAccountSignerWithBuilder" K _
                    (field "maxSpotFeeRate" "uint32") (JInt ms_u)
                    eq_refl eq_refl ltac:(cbn; tauto) eq_refl E5) as H1 end.
    exact (uint_leaf_bound 6 _ "uint32" 32 ms_u eq_refl eq_refl H1).
Qed.

(** C7 (amended): the scaling has no width check.  build_order_message_data
    puts the scaled builderFee, contractSize and limitPrice into the message
    as whatever Python ints the scaling returns (10^10 for a builder_fee of
    "1000000", above uint32), and fee_rate_uint32 returns 10^10 for
    "1000000" as well; in the exact range the scaled value is the
    truncated product, and no Overflow is raised for it.  The width is
    checked only by eth_account's encoder: if sign_order succeeds with a
    struct hash that performs the encoder's checks, the signed message's
    builderFee lies in uint32 and each leg's contractSize and limitPrice in
    uint64; if authorize_builder_payload succeeds with an
    [encode_typed_data] that performs them, both fee rates lie in uint32.
    Otherwise the encoder raises ValueOutOfBounds. *)
Theorem C7_width_checked_only_when_encoding od dir m kvs :
  build_order_message_data od dir = Ok m ->
  unwrap_order od = Ok (JObj kvs) ->
  (exists f, PyDecimal.scale (dflt kvs "builder_fee" (JStr "0.001")) 10000 = Ok f /\
             lookup m "builderFee" = Some (JInt f)) /\
  (forall leg l, process_leg dir leg = Ok l ->
     exists inst size price sz pr,
       getitem leg "size" = Ok size /\
       PyDecimal.scale size (10 ^ Z.of_N (base_decimals inst)) = Ok sz /\
       lookup l "contractSize" = Some (JInt sz) /\
       getitem leg "limit_price" = Ok price /\
       PyDecimal.scale price PRICE_MULTIPLIER = Ok pr /\
       lookup l "limitPrice" = Some (JInt pr)) /\
  (forall s c e k, PyDecimal.parse_decimal s = Some (PyDecimal.DFinite c e) ->
     Z.abs (c * k) < 10 ^ 28 -> e <= 999972 ->
     PyDecimal.scale (JStr s) k = Ok (Z.quot (c * k * 10 ^ Z.max e 0) (10 ^ Z.max (- e) 0))) /\
  PyDecimal.scale (JStr "1000000") 10000 = Ok 10000000000 /\
  Authorize.fee_rate_uint32 "1000000" = Ok 10000000000 /\
  (forall hash_struct (account : Type) from_key address sign pk env out,
     (forall pt types data h, hash_struct pt types data = Ok h -> values_fit types pt data = true) ->
     sign_order hash_struct account from_key address sign od dir pk env = Ok out ->
     (forall f, lookup m "builderFee" = Some (JInt f) -> 0 <= f < 2 ^ 32) /\
     (forall legs l k z, lookup m "legs" = Some (JList legs) -> In l legs ->
        In k ["contractSize"; "limitPrice"] -> lookup l k = Some (JInt z) -> 0 <= z < 2 ^ 64)) /\
  (forall (account : Type) from_key address sign encode
          env main builder upk spk label perms mf ms nonce exp p,
     (forall t x, encode t = Ok x -> full_message_fits t = true) ->
     authorize_builder_payload account from_key address sign encode
       env main builder upk spk label perms mf ms nonce exp = Ok p ->
     (forall k, Authorize.fee_rate_uint32 mf = Ok k -> 0 <= k < 2 ^ 32) /\
     (forall k, Authorize.fee_rate_uint32 ms = Ok k -> 0 <= k < 2 ^ 32)).
Proof.
  intros Hb Hu.
  split.
  { pose proof Hb as Hb'; apply build_ok_inv in Hb'.
    destruct Hb' as (kvs' & ? & ? & ? & ? & ? & fee_int & ? & ? & ? & ? & ? & ? &
                     Hu' & _ & _ & _ & _ & _ & Hs & _ & _ & _ & _ & _ & _ & ->).
    rewrite Hu in Hu'; injection Hu' as <-.
    exists fee_int; split; [exact Hs | reflexivity]. }
  split; [exact (process_leg_ok_inv dir)|].
  split; [exact scale_exact_quot|].
  split; [vm_compute; reflexivity|].
  split; [vm_compute; reflexivity|].
  split.
  - intros hash_struct account from_key address sign pk env out Hfit Hs.
    apply order_message_fits_bounds.
    exact (sign_order_needs_fit _ _ _ _ _ _ _ _ _ _ _ Hfit Hb Hs).
  - intros account from_key address sign encode env main builder upk spk label perms mf ms
      nonce exp p Hfit Hp.
    exact (authorize_fee_fits _ _ _ _ _ _ _ _ _ _ _ _ _ _ _ _ _ Hfit Hp).
Qed.

Lemma C7_width_checked_only_when_encoding_witness :
  (forall pt types data h, checked_hash_struct pt types data = Ok h -> values_fit types pt data = true) /\
  (forall t x, checked_encode_full_message t = Ok x -> full_message_fits t = true) /\
  (exists f, PyDecimal.scale (dflt ex_order_1_kvs "builder_fee" (JStr "0.001")) 10000 = Ok f /\
             lookup ex_message_1 "builderFee" = Some (JInt f)) /\
  (forall leg l, process_leg ex_instruments leg = Ok l ->
     exists inst size price sz pr,
       getitem leg "size" = Ok size /\
       PyDecimal.scale size (10 ^ Z.of_N (base_decimals inst)) = Ok sz /\
       lookup l "contractSize" = Some (JInt sz) /\
       getitem leg "limit_price" = Ok price /\
       PyDecimal.scale price PRICE_MULTIPLIER = Ok pr /\
       lookup l "limitPrice" = Some (JInt pr)) /\
  (forall s c e k, PyDecimal.parse_decimal s = Some (PyDecimal.DFinite c e) ->
     Z.abs (c * k) < 10 ^ 28 -> e <= 999972 ->
     PyDecimal.scale (JStr s) k = Ok (Z.quot (c * k * 10 ^ Z.max e 0) (10 ^ Z.max (- e) 0))) /\
  PyDecimal.scale (JStr "1000000") 10000 = Ok 10000000000 /\
  Authorize.fee_rate_uint32 "1000000" = Ok 10000000000 /\
  (forall hash_struct (account : Type) from_key address sign pk env out,
     (forall pt types data h, hash_struct pt types data = Ok h -> values_fit types pt data = true) ->
     sign_order hash_struct account from_key address sign ex_order_1 ex_instruments pk env = Ok out ->
     (forall f, lookup ex_message_1 "builderFee" = Some (JInt f) -> 0 <= f < 2 ^ 32) /\
     (forall legs l k z, lookup ex_message_1 "legs" = Some (JList legs) -> In l legs ->
        In k ["contractSize"; "limitPrice"] -> lookup l k = Some (JInt z) -> 0 <= z < 2 ^ 64)) /\
  (forall (account : Type) from_key address sign encode
          env main builder upk spk label perms mf ms nonce exp p,
     (forall t x, encode t = Ok x -> full_message_fits t = true) ->
     authorize_builder_payload account from_key address sign encode
       env main builder upk spk label perms mf ms nonce exp = Ok p ->
     (forall k, Authorize.fee_rate_uint32 mf = Ok k -> 0 <= k < 2 ^ 32) /\
     (forall k, Authorize.fee_rate_uint32 ms = Ok k -> 0 <= k < 2 ^ 32)).
Proof.
  split; [exact checked_hash_struct_fits|]. split; [exact checked_encode_full_message_fits|].
  apply (C7_width_checked_only_when_encoding ex_order_1 ex_instruments ex_message_1 ex_order_1_kvs);
    vm_compute; reflexivity.
Defined.
